(** * KrushiSetu / GreenTrace ML inference engine: [backend/ml/predict.py]

    A shallow embedding of the two inference pipelines of [predict.py]
    ([predict_soil] and [predict]) and the properties of their decision
    logic.

    Conventions of the embedding.
    - A Python [str] is a [string] (a sequence of bytes; class labels and
      field names are ASCII).
    - A Python [int] is a [Z].  A Python [float] is the rational it denotes
      ([Q]); the class scores are finite (no NaN), so their order is the
      order of [Q], and the threshold literal [0.15] compares as [15/100]
      against every score that came out of a float32 network.  A rounded
      float is the decimal that [round] yields and [json.dumps] prints.
    - A value that [json.load] returns or [json.dumps] prints is a [json].
      The class index file maps labels to integers (as [train.py] writes
      it).  The metadata file is whatever JSON value it holds: [predict]
      expects an object that maps a label to a record, itself an object,
      and what it does with any other value is part of the embedding.
    - A [dict] is a [gmap]; the dict literal that is emitted is a [JObj]
      with its keys in source order.
    - [predictions.argsort()] runs numpy's default sorting kind, which is
      not stable: it returns the indices in ascending order of score and
      promises nothing about the order of equal scores.  The sort is a
      parameter [argsort] of the pipeline, and all that is assumed of it
      is that contract ([Rank.sorts]).
    - A statement that can raise is a computation in [res]; an exception
      carries its class, as far as the handlers tell classes apart, and
      the text of [str(e)].
    - The files, the network and the two trained models are outside the
      program: their outcomes are the fields of an environment record.
      [log] writes to stderr and to a debug file only; it is no part of
      what is emitted and is left out. *)

From Stdlib Require Import ZArith QArith Qround Lqa String Ascii List Permutation Sorted Lia.
From stdpp Require Import base option list sorting gmap strings pretty.



(** ** Python strings *)

Module PyStr.

(** [s.startswith(p)] *)
Fixpoint startswith (p s : string) : bool :=
  match p, s with
  | EmptyString, _ => true
  | String _ _, EmptyString => false
  | String a p', String b s' => if Ascii.eqb a b then startswith p' s' else false
  end.

(** [p in s] for two strings: [p] occurs in [s] at some position. *)
Fixpoint contains (p s : string) : bool :=
  startswith p s ||
  match s with
  | EmptyString => false
  | String _ s' => contains p s'
  end.

(** [s.replace(old, new)] for one-character [old] and [new]. *)
Fixpoint replace (old new : ascii) (s : string) : string :=
  match s with
  | EmptyString => EmptyString
  | String c s' => String (if Ascii.eqb c old then new else c) (replace old new s')
  end.

Definition is_upper (c : ascii) : bool :=
  (65 <=? nat_of_ascii c)%nat && (nat_of_ascii c <=? 90)%nat.

Definition lower_char (c : ascii) : ascii :=
  if is_upper c then ascii_of_nat (nat_of_ascii c + 32) else c.

(** [s.lower()] on ASCII text. *)
Fixpoint lower (s : string) : string :=
  match s with
  | EmptyString => EmptyString
  | String c s' => String (lower_char c) (lower s')
  end.

(** The scan behind [s.split(sep)] for a non-empty [sep]: left to right,
    cutting at each occurrence that does not overlap the previous one.
    [skip] counts the characters of the separator still to be passed over,
    [cur] is the part read so far. *)
Fixpoint split_scan (sep s : string) (skip : nat) (cur : string) : list string :=
  match s with
  | EmptyString => [cur]
  | String c s' =>
      match skip with
      | S k => split_scan sep s' k cur
      | O =>
          if startswith sep s
          then cur :: split_scan sep s' (String.length sep - 1) EmptyString
          else split_scan sep s' 0 (cur +:+ String c EmptyString)
      end
  end.

(** [s.split(sep)] *)
Definition split (sep s : string) : list string := split_scan sep s 0 EmptyString.

End PyStr.

(** ** Exceptions *)

(** The classes the handlers of [predict.py] tell apart:
    [except ImportError] and [except Exception]. *)
Inductive exn_class :=
| ImportError        (* ImportError and its subclasses *)
| OtherException     (* any other subclass of Exception *)
| NonException.      (* KeyboardInterrupt, SystemExit, GeneratorExit *)

Record exn := MkExn { exn_cls : exn_class; exn_msg : string (* str(e) *) }.

Definition isinstance_ImportError (e : exn) : bool :=
  match exn_cls e with ImportError => true | _ => false end.

Definition isinstance_Exception (e : exn) : bool :=
  match exn_cls e with NonException => false | _ => true end.

Inductive res (A : Type) :=
| Ok (a : A)
| Raise (e : exn).
Arguments Ok {A} a.
Arguments Raise {A} e.

#[global] Instance res_ret : MRet res := fun A a => Ok a.
#[global] Instance res_bind : MBind res := fun A B f m =>
  match m with
  | Ok a => f a
  | Raise e => Raise e
  end.

Definition ValueError (msg : string) : exn := MkExn OtherException msg.
Definition IndexError (msg : string) : exn := MkExn OtherException msg.
Definition AttributeError (msg : string) : exn := MkExn OtherException msg.
Definition TypeError (msg : string) : exn := MkExn OtherException msg.

(** [l[i]] on a Python list. *)
Definition py_index {A} (l : list A) (i : nat) : res A :=
  match l !! i with
  | Some a => Ok a
  | None => Raise (IndexError "list index out of range")
  end.

(** ** JSON values *)

#[warnings="-register-all"]
Inductive json :=
| JNull
| JBool (b : bool)
| JInt (z : Z)
| JFloat (q : Q)
| JStr (s : string)
| JArr (l : list json)
| JObj (l : list (string * json)).

(** Lookup of a key in an emitted object. *)
Fixpoint assoc (k : string) (l : list (string * json)) : option json :=
  match l with
  | [] => None
  | (k', v) :: l' => if String.eqb k k' then Some v else assoc k l'
  end.

Definition jget (k : string) (j : json) : option json :=
  match j with
  | JObj l => assoc k l
  | _ => None
  end.

(** [j[k1][k2]...] *)
Fixpoint jpath (ks : list string) (j : json) : option json :=
  match ks with
  | [] => Some j
  | k :: ks' => match jget k j with Some v => jpath ks' v | None => None end
  end.

(** What a run of the script leaves behind: the one object it printed on
    stdout, or a traceback of an exception no handler caught. *)
Inductive outcome :=
| Emitted (j : json)
| Uncaught (e : exn).

(** The failure shape shared by both pipelines. *)
Definition model_error (error : string) : json :=
  JObj [("success", JBool false); ("status", JStr "model_error"); ("error", JStr error)].

(** ** Soil pipeline: [predict_soil] *)

Module Soil.

Definition status_map : gmap Z string :=
  {[ 0%Z := "Balanced Soil";
     1%Z := "Nutrient Deficient — Low Nitrogen / Organic Matter";
     2%Z := "Nutrient Deficient — Low Phosphorus / Potassium" ]}.

Definition rec_map : gmap Z string :=
  {[ 0%Z := "Soil is well-balanced. Maintain regular composting and pH monitoring.";
     1%Z := "Apply organic compost or urea to restore nitrogen levels. Consider green manure.";
     2%Z := "Apply DAP (Di-ammonium Phosphate) or MOP (Muriate of Potash) as appropriate." ]}.

(** [status_map.get(prediction, f"Class {prediction}")] *)
Definition status (prediction : Z) : string :=
  default ("Class " +:+ pretty prediction) (status_map !! prediction).

(** [rec_map.get(prediction, "Consult an agronomist.")] *)
Definition recommendation (prediction : Z) : string :=
  default "Consult an agronomist." (rec_map !! prediction).

(** The object emitted at lines 83-92. *)
Definition success (prediction elapsed : Z) : json :=
  JObj [("success", JBool true);
        ("data", JObj [("soilType", JStr "Analysed via ML Model");
                       ("status", JStr (status prediction));
                       ("predictionClass", JInt prediction);
                       ("recommendation", JStr (recommendation prediction));
                       ("executionTimeMs", JInt elapsed)])].

(** The world [predict_soil] runs in. *)
Record env := {
  model_path : string;                 (* SOIL_MODEL_PATH *)
  model_exists : bool;                 (* os.path.exists(SOIL_MODEL_PATH) *)
  imports : res unit;                  (* import pickle, pandas *)
  load : res unit;                     (* open(...) and pickle.load(f) *)
  py_float : string → res Q;           (* float(x): raises ValueError on what it cannot read *)
  classify : list Q → res Z;           (* pd.DataFrame(...) and int(model.predict(df)[0]) *)
  elapsed : Z                          (* round((time.time() - t0) * 1000) *)
}.

(** [[float(x) for x in pieces]] *)
Fixpoint floats (f : string → res Q) (pieces : list string) : res (list Q) :=
  match pieces with
  | [] => Ok []
  | x :: rest => v ← f x; vs ← floats f rest; Ok (v :: vs)
  end.

(** The body of the [try] at lines 57-92; its value is the object emitted. *)
Definition body (w : env) (features_str : string) : res json :=
  _ ← load w;
  values ← floats (py_float w) (PyStr.split "," features_str);
  prediction ← classify w values;
  Ok (success prediction (elapsed w)).

(** [predict_soil]: the check for the model file, the imports with their
    [except ImportError], then the guarded body with its [except
    Exception].  The logging calls are taken not to raise. *)
Definition predict_soil (w : env) (features_str : string) : outcome :=
  if negb (model_exists w) then
    Emitted (model_error ("Soil model not found: " +:+ model_path w))
  else
    match imports w with
    | Raise e =>
        if isinstance_ImportError e
        then Emitted (model_error ("Missing Python dependency: " +:+ exn_msg e))
        else Uncaught e
    | Ok _ =>
        match body w features_str with
        | Ok j => Emitted j
        | Raise e =>
            if isinstance_Exception e
            then Emitted (model_error (exn_msg e))
            else Uncaught e
        end
    end.

(** A stage of the guarded body (lines 57-92) raises [e] when control
    reaches it. *)
Inductive raises (w : env) (features_str : string) : exn → Prop :=
| raises_load e :
    load w = Raise e → raises w features_str e
| raises_floats e :
    load w = Ok () →
    floats (py_float w) (PyStr.split "," features_str) = Raise e →
    raises w features_str e
| raises_classify e values :
    load w = Ok () →
    floats (py_float w) (PyStr.split "," features_str) = Ok values →
    classify w values = Raise e →
    raises w features_str e.

End Soil.

(** ** Image pipeline: [predict] *)

Module Image.

Definition Qltb (x y : Q) : bool := negb (Qle_bool y x).

(** [predictions[i]] for an index that [argsort] or [argmax] produced. *)
Definition score (predictions : list Q) (i : nat) : Q := default 0%Q (predictions !! i).

(** [np.max]: the running maximum, replaced only by a strictly larger entry. *)
Fixpoint max_from (best : Q) (v : list Q) : Q :=
  match v with
  | [] => best
  | x :: v' => max_from (if Qltb best x then x else best) v'
  end.

Definition np_max (v : list Q) : res Q :=
  match v with
  | [] => Raise (ValueError "zero-size array to reduction operation maximum which has no identity")
  | x :: v' => Ok (max_from x v')
  end.

(** [np.argmax]: the index of the first occurrence of the maximum. *)
Fixpoint argmax_from (best_i : nat) (best : Q) (i : nat) (v : list Q) : nat :=
  match v with
  | [] => best_i
  | x :: v' =>
      if Qltb best x then argmax_from i x (S i) v' else argmax_from best_i best (S i) v'
  end.

Definition np_argmax (v : list Q) : res nat :=
  match v with
  | [] => Raise (ValueError "attempt to get argmax of an empty sequence")
  | x :: v' => Ok (argmax_from 0 x 1 v')
  end.

(** One step of an insertion sort: index [i] moves left past every index
    whose score is strictly larger, so it ends up before the first such
    index of the sorted prefix. *)
Fixpoint insert_index (v : list Q) (i : nat) (sorted : list nat) : list nat :=
  match sorted with
  | [] => [i]
  | j :: rest =>
      if Qltb (score v i) (score v j) then i :: j :: rest
      else j :: insert_index v i rest
  end.

(** One [argsort] among those numpy may run: the insertion sort, which
    keeps equal scores in index order.  It stands in for numpy where an
    example needs a concrete sort. *)
Definition insertion_argsort (v : list Q) : list nat :=
  foldl (fun sorted i => insert_index v i sorted) [] (seq 0 (length v)).

(** [order[-5:][::-1]] *)
Definition last_five_reversed (order : list nat) : list nat :=
  reverse (drop (length order - 5) order).

Section Numpy.

(** [a.argsort()] *)
Variable argsort : list Q → list nat.

(** [predictions.argsort()[-5:][::-1]] *)
Definition top_k_indices (predictions : list Q) : list nat :=
  last_five_reversed (argsort predictions).

(** [class_name not in ("PlantVillage", "Unknown")] *)
Definition usable (class_name : string) : bool :=
  negb (String.eqb class_name "PlantVillage" || String.eqb class_name "Unknown").

(** [class_names.get(int(idx), "Unknown")] *)
Definition class_name_of (class_names : gmap Z string) (idx : Z) : string :=
  default "Unknown" (class_names !! idx).

(** The loop of lines 223-228 over the candidates that are left; the state
    is [(predicted_class_idx, confidence)], and a usable candidate leaves
    the loop at once. *)
Fixpoint walk (predictions : list Q) (class_names : gmap Z string)
    (candidates : list nat) (st : Z * Q) : Z * Q :=
  match candidates with
  | [] => st
  | idx :: rest =>
      if usable (class_name_of class_names (Z.of_nat idx))
      then (Z.of_nat idx, score predictions idx)
      else walk predictions class_names rest st
  end.

(** Lines 219-232: the final [(predicted_class_idx, confidence)]. *)
Definition select (predictions : list Q) (class_names : gmap Z string) : res (Z * Q) :=
  let '(predicted_class_idx, confidence) :=
    walk predictions class_names (top_k_indices predictions) ((-1)%Z, 0%Q) in
  if (predicted_class_idx =? -1)%Z then
    i ← np_argmax predictions;
    m ← np_max predictions;
    Ok (Z.of_nat i, m)
  else Ok (predicted_class_idx, confidence).

End Numpy.

(** [if disease_data:] for a dict. *)
Definition truthy (disease_data : gmap string json) : bool :=
  bool_decide (disease_data ≠ ∅).

(** [predicted_class.split("___")[i].replace("_", " ") if "___" in
    predicted_class else predicted_class] *)
Definition label_part (predicted_class : string) (i : nat) : res string :=
  if PyStr.contains "___" predicted_class then
    part ← py_index (PyStr.split "___" predicted_class) i;
    Ok (PyStr.replace "_" " " part)
  else Ok predicted_class.

(** Lines 243-248. *)
Definition crop_name (disease_data : gmap string json) (predicted_class : string) : res json :=
  if truthy disease_data then Ok (default (JStr "Unknown") (disease_data !! "crop"))
  else c ← label_part predicted_class 0; Ok (JStr c).

Definition disease_name (disease_data : gmap string json) (predicted_class : string) : res json :=
  if truthy disease_data then Ok (default (JStr "Unknown") (disease_data !! "disease"))
  else d ← label_part predicted_class 1; Ok (JStr d).

Definition type_name (v : json) : string :=
  match v with
  | JNull => "NoneType"
  | JBool _ => "bool"
  | JInt _ => "int"
  | JFloat _ => "float"
  | JStr _ => "str"
  | JArr _ => "list"
  | JObj _ => "dict"
  end.

(** [v.lower()]: a method of [str] only. *)
Definition py_lower (v : json) : res string :=
  match v with
  | JStr s => Ok (PyStr.lower s)
  | _ => Raise (AttributeError ("'" +:+ type_name v +:+ "' object has no attribute 'lower'"))
  end.

(** [getattr(v, name)] for a method that [v] does not have. *)
Definition no_attribute (v : json) (name : string) : exn :=
  AttributeError ("'" +:+ type_name v +:+ "' object has no attribute '" +:+ name +:+ "'").

(** The dict [json.load] builds from the members of an object: of two
    members with the same name the later one stays. *)
Definition dict_of (members : list (string * json)) : gmap string json :=
  foldl (fun m kv => <[kv.1 := kv.2]> m) ∅ members.

(** [d.get(k, dflt)]: a method of [dict] only. *)
Definition py_get (d : json) (k : string) (dflt : json) : res json :=
  match d with
  | JObj members => Ok (default dflt (dict_of members !! k))
  | _ => Raise (no_attribute d "get")
  end.

(** [if v:] for any value. *)
Definition py_truthy (v : json) : bool :=
  match v with
  | JNull => false
  | JBool b => b
  | JInt z => negb (z =? 0)%Z
  | JFloat q => negb (Qeq_bool q 0)
  | JStr s => negb (String.eqb s "")
  | JArr l => match l with [] => false | _ :: _ => true end
  | JObj members => match members with [] => false | _ :: _ => true end
  end.

(** [len(v)]: defined for a string, a list and a dict. *)
Definition py_len (v : json) : res nat :=
  match v with
  | JStr s => Ok (String.length s)
  | JArr l => Ok (length l)
  | JObj members => Ok (size (dict_of members))
  | _ => Raise (TypeError ("object of type '" +:+ type_name v +:+ "' has no len()"))
  end.

(** Python's [round] on the integers: ties go to the even neighbour. *)
Definition round_half_even (q : Q) : Z :=
  let f := Qfloor q in
  match (q - inject_Z f ?= 1 # 2)%Q with
  | Lt => f
  | Gt => (f + 1)%Z
  | Eq => if Z.even f then f else (f + 1)%Z
  end.

(** [round(x, ndigits)] *)
Definition py_round (x : Q) (ndigits : nat) : Q :=
  let scale := (10 ^ Z.of_nat ndigits)%Z in
  Qmake (round_half_even (x * inject_Z scale)) (Z.to_pos scale).

Definition threshold : Q := 15 # 100.

(** The object emitted at lines 211-215. *)
Definition invalid_image : json :=
  JObj [("success", JBool true);
        ("status", JStr "invalid_image");
        ("message", JStr "Non-agricultural image detected. Please upload a clear photo of a crop leaf, plant, or soil.")].

Definition soil_insights : json :=
  JObj [("tips", JArr [JStr "Ensure soil is well-drained.";
                       JStr "Check and maintain appropriate pH levels."])].

Definition weather_impact : json :=
  JObj [("riskLevel", JStr "Monitor");
        ("advice", JStr "Monitor local weather forecasts for humidity spikes which promote fungal spread.")].

(** The world [predict] runs in. *)
Record env := {
  model_path : string;                                   (* MODEL_PATH *)
  model_exists : bool;                                   (* os.path.exists(MODEL_PATH) *)
  imports : res unit;                                    (* numpy, tensorflow, keras *)
  load_model : res unit;                                 (* load_model(MODEL_PATH) *)
  class_indices : option (res (list (string * Z)));      (* None: no class_indices.json *)
  disease_info : option (res json);                      (* None: no disease_info.json *)
  download : res unit;                                   (* urlopen, read, temp file *)
  preprocess : res unit;                                 (* load_img ... img_array /= 255.0 *)
  inference : res (list Q);                              (* model.predict(img_array)[0] *)
  total_time : Z                                         (* round((time.time() - t0) * 1000) *)
}.

(** [{v: k for k, v in class_indices.items()}] *)
Definition invert (class_indices : list (string * Z)) : gmap Z string :=
  foldl (fun m kv => <[kv.2 := kv.1]> m) ∅ class_indices.

(** Step 4. *)
Definition load_class_names (w : env) : res (gmap Z string) :=
  match class_indices w with
  | Some loaded => ci ← loaded; Ok (invert ci)
  | None => Ok {[ 0%Z := "Unknown" ]}
  end.

(** Step 5: the value [json.load] returns, whose length is logged. *)
Definition load_disease_info (w : env) : res json :=
  match disease_info w with
  | Some loaded => info ← loaded; _ ← py_len info; Ok info
  | None => Ok (JObj [])
  end.

(** The record [predict] works with for [label] (line 241) when the store
    is an object and its member for [label], if it has one, is an object
    too: the fields of that member, none when there is no such member.
    [None] when the store or the member is a value of another kind. *)
Definition record_at (full_disease_info : json) (label : string) : option (gmap string json) :=
  match full_disease_info with
  | JObj entries =>
      match default (JObj []) (dict_of entries !! label) with
      | JObj members => Some (dict_of members)
      | _ => None
      end
  | _ => None
  end.

Section Formatting.

Variable argsort : list Q → list nat.

(** [str(v)] for a float, a list or a dict: Python's [repr], which this
    development does not fix. *)
Variable py_repr : json → string.

(** What an f-string puts in place of [{v}]. *)
Definition py_str (v : json) : string :=
  match v with
  | JStr s => s
  | JNull => "None"
  | JBool true => "True"
  | JBool false => "False"
  | JInt z => pretty z
  | _ => py_repr v
  end.

(** The default of the [diagnosis] field, line 263. *)
Definition diagnosis_text (disease crop : json) (confidence : Q) : string :=
  "ML model detected " +:+ py_str disease +:+ " in " +:+ py_str crop +:+ " with "
  +:+ py_str (JFloat (py_round (confidence * 100) 1)) +:+ "% confidence.".

(** ["Healthy" if "healthy" in disease_name.lower() else "Diseased"], given
    the lowered name. *)
Definition default_health (lowered : string) : string :=
  if PyStr.contains "healthy" lowered then "Healthy" else "Diseased".

(** The dict literal of lines 252-282, given the value of the default
    argument of the [health_status] lookup. *)
Definition result_object (predicted_class : string) (crop disease : json) (confidence : Q)
    (health : string) (disease_data : gmap string json) (total_time : Z) : json :=
  JObj
    [("success", JBool true);
     ("data", JObj
       [("modelUsed", JStr "crop_disease_model.h5 (Local CNN)");
        ("predictedClass", JStr predicted_class);
        ("crop", crop);
        ("disease", disease);
        ("confidence", JFloat (py_round confidence 4));
        ("plantHealth", default (JStr health) (disease_data !! "health_status"));
        ("executionTimeMs", JInt total_time);
        ("recommendations", JObj
          [("diagnosis",
            default (JStr (diagnosis_text disease crop confidence)) (disease_data !! "diagnosis"));
           ("treatment",
            default (JArr [JStr "Consult a local agronomist for treatment advice."])
                    (disease_data !! "chemical_treatment"));
           ("organicTreatment",
            default (JArr [JStr "Apply neem-based organic pesticide as a general precaution."])
                    (disease_data !! "organic_treatment"));
           ("irrigationAdvice",
            default (JStr "Monitor soil moisture; avoid waterlogging.")
                    (disease_data !! "irrigation_advice"));
           ("fertilizerAdvice",
            default (JStr "Maintain balanced NPK nutrition.")
                    (disease_data !! "fertilizer_advice"))]);
        ("growthStage", JObj
          [("stage", default (JStr "Unknown") (disease_data !! "growth_stage"));
           ("daysToHarvest", default (JInt 0) (disease_data !! "days_to_harvest"))]);
        ("tutorial", default (JArr []) (disease_data !! "tutorial"));
        ("soilInsights", soil_insights);
        ("weatherImpact", weather_impact)])].

(** Building [result] (lines 252-282).  [dict.get] evaluates its default
    before the lookup, so [disease_name.lower()] runs whether or not the
    record has a [health_status], and raises when the name is no [str]. *)
Definition result (predicted_class : string) (crop disease : json) (confidence : Q)
    (disease_data : gmap string json) (total_time : Z) : res json :=
  lowered ← py_lower disease;
  Ok (result_object predicted_class crop disease confidence
        (default_health lowered) disease_data total_time).

(** Lines 243-283 for a record that is a dict: the names, then the
    result. *)
Definition assemble (predicted_class : string) (disease_data : gmap string json)
    (total_time : Z) (confidence : Q) : res json :=
  crop ← crop_name disease_data predicted_class;
  disease ← disease_name disease_data predicted_class;
  result predicted_class crop disease confidence disease_data total_time.

(** Lines 234-283: everything after the candidate has been selected.  The
    store and the record are whatever [json.load] returned.  A record that
    is no dict has no [get]: a truthy one fails at line 244, a falsy one
    (such as [null]) passes for a missing record at line 243, the label is
    decomposed, and the first lookup of the dict literal fails (line 260,
    where [disease_data.get] is evaluated before its arguments). *)
Definition enrich (class_names : gmap Z string) (full_disease_info : json) (total_time : Z)
    (predicted_class_idx : Z) (confidence : Q) : res json :=
  let predicted_class := class_name_of class_names predicted_class_idx in
  disease_data ← py_get full_disease_info predicted_class (JObj []);
  match disease_data with
  | JObj members => assemble predicted_class (dict_of members) total_time confidence
  | _ =>
      if py_truthy disease_data then Raise (no_attribute disease_data "get")
      else
        _ ← label_part predicted_class 0;
        _ ← label_part predicted_class 1;
        Raise (no_attribute disease_data "get")
  end.

(** Lines 205-283: from the score vector to the object to emit. *)
Definition diagnose (predictions : list Q) (class_names : gmap Z string)
    (full_disease_info : json) (total_time : Z) : res json :=
  top_confidence ← np_max predictions;
  if Qltb top_confidence threshold then Ok invalid_image
  else
    '(predicted_class_idx, confidence) ← select argsort predictions class_names;
    enrich class_names full_disease_info total_time predicted_class_idx confidence.

(** The body of the [try] at lines 130-283; its value is the object
    emitted.  The download has a handler of its own (lines 177-181). *)
Definition body (w : env) : res json :=
  _ ← load_model w;
  class_names ← load_class_names w;
  full_disease_info ← load_disease_info w;
  match download w with
  | Raise e =>
      if isinstance_Exception e
      then Ok (model_error ("Failed to download image: " +:+ exn_msg e))
      else Raise e
  | Ok _ =>
      _ ← preprocess w;
      predictions ← inference w;
      diagnose predictions class_names full_disease_info (total_time w)
  end.

(** [predict]: the check for the model file, the imports with their
    [except ImportError], then the guarded body with its [except
    Exception].  The logging calls and [os.path.getsize] on the file just
    found are taken not to raise. *)
Definition predict (w : env) : outcome :=
  if negb (model_exists w) then
    Emitted (model_error ("Model not loaded — file not found: " +:+ model_path w))
  else
    match imports w with
    | Raise e =>
        if isinstance_ImportError e
        then Emitted (model_error ("TensorFlow missing: " +:+ exn_msg e
                                   +:+ ". Run: pip install -r requirements.txt"))
        else Uncaught e
    | Ok _ =>
        match body w with
        | Ok j => Emitted j
        | Raise e =>
            if isinstance_Exception e
            then Emitted (model_error (exn_msg e))
            else Uncaught e
        end
    end.

End Formatting.

(** Every stage before the decision succeeded: [predict] has a score
    vector, the class names and the metadata in hand. *)
Definition reaches_inference (w : env) (class_names : gmap Z string)
    (full_disease_info : json) (predictions : list Q) : Prop :=
  model_exists w = true ∧ imports w = Ok () ∧ load_model w = Ok () ∧
  load_class_names w = Ok class_names ∧ load_disease_info w = Ok full_disease_info ∧
  download w = Ok () ∧ preprocess w = Ok () ∧ inference w = Ok predictions.

(** A stage of the guarded body (lines 130-283) other than the download
    raises [e] when control reaches it. *)
Inductive raises (argsort : list Q → list nat) (py_repr : json → string) (w : env) :
    exn → Prop :=
| raises_load_model e :
    load_model w = Raise e → raises argsort py_repr w e
| raises_class_names e :
    load_model w = Ok () → load_class_names w = Raise e → raises argsort py_repr w e
| raises_disease_info e class_names :
    load_model w = Ok () → load_class_names w = Ok class_names →
    load_disease_info w = Raise e → raises argsort py_repr w e
| raises_preprocess e class_names info :
    load_model w = Ok () → load_class_names w = Ok class_names →
    load_disease_info w = Ok info → download w = Ok () →
    preprocess w = Raise e → raises argsort py_repr w e
| raises_inference e class_names info :
    load_model w = Ok () → load_class_names w = Ok class_names →
    load_disease_info w = Ok info → download w = Ok () →
    preprocess w = Ok () → inference w = Raise e → raises argsort py_repr w e
| raises_decision e class_names info predictions :
    load_model w = Ok () → load_class_names w = Ok class_names →
    load_disease_info w = Ok info → download w = Ok () →
    preprocess w = Ok () → inference w = Ok predictions →
    diagnose argsort py_repr predictions class_names info (total_time w) = Raise e →
    raises argsort py_repr w e.

(** The download is reached. *)
Definition reaches_download (w : env) : Prop :=
  ∃ class_names info,
    load_model w = Ok () ∧ load_class_names w = Ok class_names ∧
    load_disease_info w = Ok info.

(** The fields of the success shape a caller relies on, as paths into the
    emitted object. *)
Definition required_fields : list (list string) :=
  [["data"; "predictedClass"]; ["data"; "crop"]; ["data"; "disease"];
   ["data"; "confidence"]; ["data"; "plantHealth"];
   ["data"; "recommendations"; "diagnosis"];
   ["data"; "recommendations"; "treatment"];
   ["data"; "recommendations"; "organicTreatment"];
   ["data"; "recommendations"; "irrigationAdvice"];
   ["data"; "recommendations"; "fertilizerAdvice"];
   ["data"; "growthStage"; "stage"]; ["data"; "growthStage"; "daysToHarvest"];
   ["data"; "tutorial"]].

(** The field at [path] is there and is not [null]. *)
Definition populated (j : json) (path : list string) : Prop :=
  ∃ v, jpath path j = Some v ∧ v ≠ JNull.

End Image.

(** ** Sample inputs *)

Module Sample.

(** A rendering of floats in fixed notation, as Python prints the short
    decimals of the examples below ([90.0], [45.3]); used where an example
    needs one concrete [py_repr]. *)
Fixpoint frac_digits (fuel : nat) (num den : Z) : string :=
  match fuel with
  | O => ""
  | S fuel' =>
      let d := (num * 10 / den)%Z in
      let r := (num * 10 mod den)%Z in
      pretty d +:+ (if (r =? 0)%Z then "" else frac_digits fuel' r den)
  end.

Definition float_repr (q : Q) : string :=
  let n := Z.abs (Qnum q) in
  let d := Zpos (Qden q) in
  (if (Qnum q <? 0)%Z then "-" else "") +:+ pretty (n / d)%Z +:+ "."
  +:+ frac_digits 17 (n mod d)%Z d.

Definition py_repr (v : json) : string :=
  match v with
  | JFloat q => float_repr q
  | JArr _ => "[...]"
  | JObj _ => "{...}"
  | _ => ""
  end.

(** A run in which every stage after the imports succeeds; there is a
    [class_indices.json] and no [disease_info.json]. *)
Definition world_importing (imports : res unit) (predictions : list Q) : Image.env :=
  {| Image.model_path := "models/crop_disease_model.h5";
     Image.model_exists := true;
     Image.imports := imports;
     Image.load_model := Ok ();
     Image.class_indices :=
       Some (Ok [("PlantVillage", 0%Z); ("Tomato___Healthy", 1%Z); ("Wheat___Rust", 2%Z)]);
     Image.disease_info := None;
     Image.download := Ok ();
     Image.preprocess := Ok ();
     Image.inference := Ok predictions;
     Image.total_time := 840 |}.

Definition world : list Q → Image.env := world_importing (Ok ()).

(** The import of TensorFlow fails with an exception that is no
    [ImportError] (a [TypeError] of an incompatible protobuf). *)
Definition import_crash : Image.env :=
  world_importing (Raise (MkExn OtherException "Descriptors cannot be created directly."))
                  [9 # 10; 1 # 10]%Q.

(** A [float] that knows three spellings and raises on every other. *)
Definition py_float (x : string) : res Q :=
  match ({[ "90" := 90%Q; "42" := 42%Q; "6.5" := (65 # 10)%Q ]} : gmap string Q) !! x with
  | Some q => Ok q
  | None => Raise (ValueError ("could not convert string to float: '" +:+ x +:+ "'"))
  end.

(** A soil run whose model answers class 1 for every feature vector. *)
Definition soil_world : Soil.env :=
  {| Soil.model_path := "models/soil_model.pkl";
     Soil.model_exists := true;
     Soil.imports := Ok ();
     Soil.load := Ok ();
     Soil.py_float := py_float;
     Soil.classify := fun _ => Ok 1%Z;
     Soil.elapsed := 12 |}.

Definition class_names : gmap Z string :=
  Image.invert [("PlantVillage", 0%Z); ("Tomato___Healthy", 1%Z); ("Wheat___Rust", 2%Z)].

(** A store whose record for the tomato label has a [null] crop. *)
Definition null_crop : json :=
  JObj [("Tomato___Healthy", JObj [("crop", JNull)])].

(** A store that holds [null] in place of the record for the tomato
    label. *)
Definition null_record : json :=
  JObj [("Tomato___Healthy", JNull)].

(** A store whose record for the tomato label names neither crop nor
    disease. *)
Definition advice_only : json :=
  JObj [("Tomato___Healthy",
         JObj [("irrigation_advice", JStr "Water at the base of the plant.")])].

(** The same store with one more field in that record. *)
Definition advice_with_source : json :=
  JObj [("Tomato___Healthy",
         JObj [("irrigation_advice", JStr "Water at the base of the plant.");
               ("source", JStr "field guide")])].

End Sample.

(** ** Orders on class indices *)

Module Rank.

(** Ascending by score: what every sorting kind of [argsort] promises. *)
Definition ascending (v : list Q) (i j : nat) : Prop :=
  (Image.score v i <= Image.score v j)%Q.

(** An [argsort] of [v], whatever it does with equal scores: the indices
    of [v], each once, in ascending order of score. *)
Definition is_argsort (v : list Q) (order : list nat) : Prop :=
  order ≡ₚ seq 0 (length v) ∧ StronglySorted (ascending v) order.

(** The contract of [argsort]: on every vector it returns an argsort of
    it.  Nothing is said of equal scores. *)
Definition sorts (argsort : list Q → list nat) : Prop :=
  ∀ v, is_argsort v (argsort v).

(** No two entries of [v] are equal. *)
Definition distinct (v : list Q) : Prop :=
  ∀ i j, i < length v → j < length v → (Image.score v i == Image.score v j)%Q → i = j.

(** A check of [distinct] that runs. *)
Fixpoint distinctb (v : list Q) : bool :=
  match v with
  | [] => true
  | x :: v' => forallb (fun y => negb (Qeq_bool x y)) v' && distinctb v'
  end.

(** Ascending by score, equal scores in index order: the order the
    insertion sort produces. *)
Definition before (v : list Q) (i j : nat) : Prop :=
  (Image.score v i < Image.score v j)%Q ∨
  ((Image.score v i == Image.score v j)%Q ∧ i < j).

(** The tie rule as the specification words it: of two candidates with
    equal scores, the one with the lower index stands first. *)
Definition lower_index_first (v : list Q) (candidates : list nat) : Prop :=
  ∀ p q i j, p < q →
    candidates !! p = Some i → candidates !! q = Some j →
    (Image.score v i == Image.score v j)%Q → i < j.

(** The opposite rule: the higher index first. *)
Definition higher_index_first (v : list Q) (candidates : list nat) : Prop :=
  ∀ p q i j, p < q →
    candidates !! p = Some i → candidates !! q = Some j →
    (Image.score v i == Image.score v j)%Q → j < i.

(** A candidate the loop of lines 223-228 passes over: its label is one
    of the two artifact names. *)
Definition skipped (class_names : gmap Z string) (idx : nat) : Prop :=
  Image.class_name_of class_names (Z.of_nat idx) = "PlantVillage" ∨
  Image.class_name_of class_names (Z.of_nat idx) = "Unknown".

End Rank.

(** ** The data frame of [predict_soil] *)

Module Frame.

(** Line 65. *)
Definition feature_names : list string :=
  ["N"; "P"; "K"; "pH"; "EC"; "OC"; "S"; "Zn"; "Fe"; "Cu"; "Mn"; "B"].

(** The columns [train_soil.py] fits the classifier on (line 29). *)
Definition training_columns : list string :=
  ["N"; "P"; "K"; "pH"; "EC"; "OC"; "S"; "Zn"; "Fe"; "Cu"; "Mn"; "B"].

(** [pd.DataFrame([values], columns=feature_names)]: one row, which pandas
    refuses unless it has one value per column. *)
Definition data_frame (values : list Q) : res (list (string * Q)) :=
  if (length values =? length feature_names)%nat then Ok (zip feature_names values)
  else Raise (ValueError (pretty (length feature_names) +:+ " columns passed, passed data had "
                          +:+ pretty (length values) +:+ " columns")).

(** Lines 66-68 around a trained model [model_predict], which reads the
    frame and returns [int(model.predict(df)[0])]. *)
Definition classify (model_predict : list (string * Q) → res Z) (values : list Q) : res Z :=
  df ← data_frame values;
  model_predict df.

(** The run [w] with the classification stage spelled out. *)
Definition with_model (w : Soil.env) (model_predict : list (string * Q) → res Z) : Soil.env :=
  {| Soil.model_path := Soil.model_path w;
     Soil.model_exists := Soil.model_exists w;
     Soil.imports := Soil.imports w;
     Soil.load := Soil.load w;
     Soil.py_float := Soil.py_float w;
     Soil.classify := classify model_predict;
     Soil.elapsed := Soil.elapsed w |}.

(** The number of occurrences of a character. *)
Fixpoint count_char (c : ascii) (s : string) : nat :=
  match s with
  | EmptyString => 0
  | String d s' => (if Ascii.eqb d c then 1 else 0) + count_char c s'
  end.

End Frame.

(** ** The script: [run_self_test] and the entry point *)

Module Script.



(** What a run of the script leaves behind: the objects printed on stdout,
    in order, and the exception that ended it, if one did. *)
Record run := { emitted : list json; escaped : option exn }.


(** The machine the script runs on: what [predict] meets for each URL, and
    what [predict_soil] meets. *)
Record world := {
  image_world : string → Image.env;
  soil_world : Soil.env
}.

(** Lines 297-310. *)
Definition test_images : list (string * string) :=
  [("Image 1 — Crop Leaf (Tomato/Tomato-like)", "https://www.gstatic.com/webp/gallery/1.jpg");
   ("Image 2 — Crop Leaf (Different)", "https://www.gstatic.com/webp/gallery3/1.png");
   ("Image 3 — Non-Agricultural Object", "https://www.gstatic.com/webp/gallery/2.jpg")].

Section Formatting.

Variable argsort : list Q → list nat.
Variable py_repr : json → string.

(** The loop of lines 316-323: an exception that escapes one [predict]
    ends the loop and the script. *)
Fixpoint self_test_loop (iw : string → Image.env) (tests : list (string * string)) : run :=
  match tests with
  | [] => {| emitted := []; escaped := None |}
  | t :: rest =>
      match Image.predict argsort py_repr (iw t.2) with
      | Emitted j =>
          let r := self_test_loop iw rest in
          {| emitted := j :: emitted r; escaped := escaped r |}
      | Uncaught e => {| emitted := []; escaped := Some e |}
      end
  end.

Definition run_self_test (iw : string → Image.env) : run := self_test_loop iw test_images.



End Formatting.

End Script.

(** ** The fields [predict] reads from a metadata record *)

Module Fields.

(** The keys of lines 244-273. *)
Definition read : list string :=
  ["crop"; "disease"; "health_status"; "diagnosis"; "chemical_treatment";
   "organic_treatment"; "irrigation_advice"; "fertilizer_advice"; "growth_stage";
   "days_to_harvest"; "tutorial"].

End Fields.

(** ** More sample inputs *)

Module Fixture.

(** A run like [Sample.world] with a [disease_info.json] and with no
    [class_indices.json] unless one is given. *)
Definition world (class_indices : option (list (string * Z)))
    (info : json) (predictions : list Q) : Image.env :=
  {| Image.model_path := "models/crop_disease_model.h5";
     Image.model_exists := true;
     Image.imports := Ok ();
     Image.load_model := Ok ();
     Image.class_indices := Ok <$> class_indices;
     Image.disease_info := Some (Ok info);
     Image.download := Ok ();
     Image.preprocess := Ok ();
     Image.inference := Ok predictions;
     Image.total_time := 840 |}.

(** A record with a health status and a number for a disease. *)
Definition numbered_disease : json :=
  JObj [("Tomato___Healthy", JObj [("disease", JInt 7); ("health_status", JStr "Healthy")])].

(** A soil model that answers class 2 for every frame. *)
Definition model (df : list (string * Q)) : res Z := Ok 2%Z.

End Fixture.

(** * Properties *)

(** ** Strings *)

#[local] Arguments String.append !s1 s2 : simpl nomatch.

Section StringFacts.

Import PyStr.

Lemma append_empty_r (s : string) : s +:+ "" = s.
Proof. induction s as [|c s IH]; simpl; [reflexivity | now rewrite IH]. Qed.

Lemma append_assoc (a b c : string) : (a +:+ b) +:+ c = a +:+ b +:+ c.
Proof. induction a as [|x a IH]; simpl; [reflexivity | now rewrite IH]. Qed.

Lemma append_snoc (cur : string) (c : ascii) (s : string) :
  (cur +:+ String c "") +:+ s = cur +:+ String c s.
Proof. now rewrite append_assoc. Qed.

Lemma startswith_app (p post : string) : startswith p (p +:+ post) = true.
Proof.
  induction p as [|c p IH]; simpl; [reflexivity |].
  now rewrite Ascii.eqb_refl.
Qed.

Lemma startswith_inv (p s : string) :
  startswith p s = true → ∃ post, s = p +:+ post.
Proof.
  revert s; induction p as [|c p IH]; intros s H.
  - now exists s.
  - destruct s as [|d s]; simpl in H; [discriminate |].
    destruct (Ascii.eqb_spec c d) as [->|]; [| discriminate].
    destruct (IH _ H) as [post ->]. now exists post.
Qed.

Lemma contains_startswith (p s : string) :
  startswith p s = true → contains p s = true.
Proof. intros H. destruct s; simpl; now rewrite H. Qed.

(** [contains] is the substring relation. *)
Lemma contains_iff (p s : string) :
  contains p s = true ↔ ∃ pre post, s = pre +:+ p +:+ post.
Proof.
  split.
  - induction s as [|c s IH]; simpl; intros H.
    + rewrite orb_false_r in H. destruct (startswith_inv _ _ H) as [post E].
      now exists "", post.
    + apply orb_true_iff in H as [H|H].
      * destruct (startswith_inv _ _ H) as [post E]. now exists "", post.
      * destruct (IH H) as (pre & post & ->). now exists (String c pre), post.
  - intros (pre & post & ->). induction pre as [|c pre IH]; simpl.
    + apply contains_startswith, startswith_app.
    + rewrite IH. apply orb_true_r.
Qed.

Lemma lower_app (a b : string) : lower (a +:+ b) = lower a +:+ lower b.
Proof. induction a as [|c a IH]; simpl; [reflexivity | now rewrite IH]. Qed.

Lemma lower_app_inv (s x y : string) :
  lower s = x +:+ y → ∃ a b, s = a +:+ b ∧ lower a = x ∧ lower b = y.
Proof.
  revert s; induction x as [|c x IH]; intros s H.
  - now exists "", s.
  - destruct s as [|d s]; simpl in H; [discriminate |].
    injection H as Hc Hs. destruct (IH _ Hs) as (a & b & -> & Ha & Hb).
    exists (String d a), b. simpl. now rewrite Hc, Ha.
Qed.

(** The test of line 260 finds a case-insensitive occurrence. *)
Lemma contains_lower_iff (p s : string) :
  contains p (lower s) = true ↔
  ∃ pre mid post, s = pre +:+ mid +:+ post ∧ lower mid = p.
Proof.
  rewrite contains_iff. split.
  - intros (pre' & post' & H).
    destruct (lower_app_inv _ _ _ H) as (pre & rest & -> & _ & Hrest).
    destruct (lower_app_inv _ _ _ Hrest) as (mid & post & -> & Hmid & _).
    now exists pre, mid, post.
  - intros (pre & mid & post & -> & <-).
    exists (lower pre), (lower post). now rewrite !lower_app.
Qed.

(** *** The separator scan *)

Lemma split_scan_nonempty (sep s : string) (skip : nat) (cur : string) :
  split_scan sep s skip cur ≠ [].
Proof.
  revert skip cur; induction s as [|c s IH]; intros skip cur; simpl; [discriminate |].
  destruct skip; [| apply IH].
  destruct (startswith sep (String c s)); [discriminate | apply IH].
Qed.

(** A label that contains the separator splits into at least two parts,
    so the subscripts [0] and [1] of lines 247-248 are in range. *)
Lemma split_scan_two (a : ascii) (sep' s cur : string) :
  contains (String a sep') s = true →
  ∃ x y rest, split_scan (String a sep') s 0 cur = x :: y :: rest.
Proof.
  set (sep := String a sep').
  revert cur; induction s as [|c s IH]; intros cur H; [discriminate |].
  cbn [split_scan]. cbn [contains] in H.
  destruct (startswith sep (String c s)) eqn:E.
  - destruct (split_scan sep s (String.length sep - 1) "") as [|y rest] eqn:E2.
    + now apply split_scan_nonempty in E2.
    + now exists cur, y, rest.
  - apply IH. exact H.
Qed.

(** Before the first separator nothing is cut: the scan over
    [A ___ B] yields [A] and goes on with [B]. *)
Lemma startswith_sep_inside (c : ascii) (A B : string) :
  startswith "___" (String c A +:+ "___" +:+ B) = startswith "___" (String c A +:+ "__").
Proof.
  destruct A as [|c1 [|c2 A]]; simpl;
    repeat match goal with |- context [Ascii.eqb ?x ?y] => destruct (Ascii.eqb x y) end;
    reflexivity.
Qed.

Lemma split_scan_first (A B cur : string) :
  contains "___" (A +:+ "__") = false →
  split_scan "___" (A +:+ "___" +:+ B) 0 cur = (cur +:+ A) :: split_scan "___" B 0 "".
Proof.
  revert cur; induction A as [|c A IH]; intros cur H.
  - now rewrite append_empty_r.
  - change (String c A +:+ "__") with (String c (A +:+ "__")) in H.
    cbn [contains] in H. apply orb_false_iff in H as [H1 H2].
    change (String c A +:+ "___" +:+ B) with (String c (A +:+ "___" +:+ B)).
    cbn [split_scan].
    change (String c (A +:+ "___" +:+ B)) with (String c A +:+ "___" +:+ B).
    rewrite startswith_sep_inside.
    change (String c A +:+ "__") with (String c (A +:+ "__")).
    rewrite H1, IH by exact H2. now rewrite append_snoc.
Qed.

Lemma split_scan_whole (sep s cur : string) :
  contains sep s = false → split_scan sep s 0 cur = [cur +:+ s].
Proof.
  revert cur; induction s as [|c s IH]; intros cur H.
  - now rewrite append_empty_r.
  - cbn [contains] in H. apply orb_false_iff in H as [H1 H2].
    cbn [split_scan]. rewrite H1, IH by exact H2. now rewrite append_snoc.
Qed.

Lemma contains_sep_app (A B : string) : contains "___" (A +:+ "___" +:+ B) = true.
Proof. apply contains_iff. now exists A, B. Qed.

End StringFacts.

(** ** Scores and their order *)

Section ScoreFacts.

Import Image.

Lemma Qltb_lt (x y : Q) : Qltb x y = true ↔ (x < y)%Q.
Proof.
  unfold Qltb. rewrite negb_true_iff. split.
  - intros H. apply Qnot_le_lt. intros Hle. apply Qle_bool_iff in Hle. congruence.
  - intros H. destruct (Qle_bool y x) eqn:E; [| reflexivity].
    apply Qle_bool_iff in E. exfalso. exact (Qlt_not_le _ _ H E).
Qed.

Lemma Qltb_ge (x y : Q) : Qltb x y = false ↔ (y <= x)%Q.
Proof.
  unfold Qltb. rewrite negb_false_iff. apply Qle_bool_iff.
Qed.

Lemma StronglySorted_reverse {A} (R : relation A) (l : list A) :
  StronglySorted R l → StronglySorted (flip R) (reverse l).
Proof.
  induction l as [|x l IH]; intros H; [constructor |].
  apply StronglySorted_cons in H as [Hx Hl].
  rewrite reverse_cons. apply StronglySorted_app. split; [| split].
  - intros a b Ha Hb. apply list_elem_of_singleton in Hb as ->.
    rewrite elem_of_reverse in Ha. unfold flip.
    rewrite Forall_forall in Hx. now apply Hx.
  - now apply IH.
  - repeat constructor.
Qed.

Lemma elem_of_drop_in {A} (x : A) (n : nat) (l : list A) : x ∈ drop n l → x ∈ l.
Proof.
  intros H. rewrite <- (take_drop n l). apply elem_of_app. now right.
Qed.

Lemma StronglySorted_lookup {A} (R : relation A) (l : list A) (p q : nat) (x y : A) :
  StronglySorted R l → p < q → l !! p = Some x → l !! q = Some y → R x y.
Proof.
  intros H Hpq Hp Hq.
  rewrite <- (take_drop q l) in H.
  apply (StronglySorted_app_1_elem_of _ _ _ x y) in H; [exact H | |].
  - apply list_elem_of_lookup. exists p. rewrite lookup_take_lt by lia. exact Hp.
  - apply list_elem_of_lookup. exists 0. rewrite lookup_drop, Nat.add_0_r. exact Hq.
Qed.

Variable v : list Q.

Lemma before_le (i j : nat) : Rank.before v i j → (score v i <= score v j)%Q.
Proof.
  intros [H | [H _]]; [now apply Qlt_le_weak | rewrite H; apply Qle_refl].
Qed.

Lemma insert_index_perm (i : nat) (l : list nat) : insert_index v i l ≡ₚ i :: l.
Proof.
  induction l as [|j l IH]; simpl; [reflexivity |].
  destruct (Qltb (score v i) (score v j)); [reflexivity |].
  rewrite IH. apply Permutation_swap.
Qed.

Lemma insert_index_sorted (i : nat) (l : list nat) :
  StronglySorted (Rank.before v) l →
  Forall (fun j => j < i) l →
  StronglySorted (Rank.before v) (insert_index v i l).
Proof.
  induction l as [|j l IH]; simpl; intros Hs Hlt.
  - repeat constructor.
  - apply StronglySorted_cons in Hs as [Hj Hs].
    apply Forall_cons in Hlt as [Hji Hlt].
    destruct (Qltb (score v i) (score v j)) eqn:E.
    + apply Qltb_lt in E. apply StronglySorted_cons. split.
      * constructor; [now left |].
        eapply Forall_impl; [exact Hj |]. intros x Hx. left.
        eapply Qlt_le_trans; [exact E | now apply before_le].
      * apply StronglySorted_cons. now split.
    + apply Qltb_ge in E. apply StronglySorted_cons. split; [| now apply IH].
      rewrite insert_index_perm. constructor; [| exact Hj].
      destruct (Qlt_le_dec (score v j) (score v i)) as [Hlt'|Hle]; [now left |].
      right. split; [now apply Qle_antisym | exact Hji].
Qed.

Lemma insertion_fold (n k : nat) (acc : list nat) :
  acc ≡ₚ seq 0 k →
  StronglySorted (Rank.before v) acc →
  let r := foldl (fun sorted i => insert_index v i sorted) acc (seq k n) in
  r ≡ₚ seq 0 (k + n) ∧ StronglySorted (Rank.before v) r.
Proof.
  revert k acc; induction n as [|n IH]; intros k acc Hp Hs; simpl.
  - now rewrite Nat.add_0_r.
  - replace (k + S n) with (S k + n) by lia. apply IH.
    + rewrite insert_index_perm, Hp. replace (S k) with (k + 1) by lia.
      rewrite seq_app. simpl. apply Permutation_cons_append.
    + apply insert_index_sorted; [exact Hs |].
      rewrite Hp. apply Forall_forall. intros x Hx.
      apply elem_of_seq in Hx. lia.
Qed.

Lemma insertion_perm : insertion_argsort v ≡ₚ seq 0 (length v).
Proof. apply (insertion_fold (length v) 0 []); [reflexivity | constructor]. Qed.

Lemma insertion_sorted : StronglySorted (Rank.before v) (insertion_argsort v).
Proof. apply (insertion_fold (length v) 0 []); [reflexivity | constructor]. Qed.

Lemma StronglySorted_weaken {A} (R S : relation A) (l : list A) :
  (∀ x y, R x y → S x y) → StronglySorted R l → StronglySorted S l.
Proof.
  intros HRS. induction 1 as [|x l Hl IH Hx]; constructor; [exact IH |].
  eapply Forall_impl; [exact Hx | auto].
Qed.

(** The insertion sort is an [argsort]. *)
Lemma insertion_is_argsort : Rank.is_argsort v (insertion_argsort v).
Proof.
  split; [apply insertion_perm |].
  apply (StronglySorted_weaken (Rank.before v)); [apply before_le | apply insertion_sorted].
Qed.

(** *** The last five of any [argsort], reversed *)

Section AnyOrder.

Variable order : list nat.
Hypothesis Horder : Rank.is_argsort v order.

Lemma order_length : length order = length v.
Proof. destruct Horder as [Hp _]. rewrite Hp. apply length_seq. Qed.

Lemma last_five_length : length (last_five_reversed order) = Nat.min 5 (length v).
Proof.
  unfold last_five_reversed. rewrite length_reverse, length_drop, order_length. lia.
Qed.

Lemma last_five_elem (i : nat) :
  i ∈ last_five_reversed order ↔ i ∈ drop (length v - 5) order.
Proof. unfold last_five_reversed. now rewrite elem_of_reverse, order_length. Qed.

Lemma last_five_in_range (i : nat) : i ∈ last_five_reversed order → i < length v.
Proof.
  intros H. apply last_five_elem, elem_of_drop_in in H.
  destruct Horder as [Hp _]. rewrite Hp in H. apply elem_of_seq in H. lia.
Qed.

Lemma last_five_NoDup : NoDup (last_five_reversed order).
Proof.
  unfold last_five_reversed. rewrite reverse_Permutation.
  assert (NoDup order) as H by (destruct Horder as [Hp _]; rewrite Hp; apply NoDup_seq).
  rewrite <- (take_drop (length order - 5) order) in H.
  now apply NoDup_app in H as (_ & _ & H).
Qed.

(** Every index left out scores no more than every index kept. *)
Lemma last_five_top (i j : nat) :
  i ∈ last_five_reversed order → j < length v → j ∉ last_five_reversed order →
  (score v j <= score v i)%Q.
Proof.
  intros Hi Hj Hnj. rewrite last_five_elem in Hi, Hnj.
  destruct Horder as [Hp Hs].
  assert (j ∈ order) as Hin by (rewrite Hp; apply elem_of_seq; lia).
  rewrite <- (take_drop (length v - 5) order) in Hs, Hin.
  apply elem_of_app in Hin as [Hin|Hin]; [| contradiction].
  exact (StronglySorted_app_1_elem_of _ _ _ _ _ Hs Hin Hi).
Qed.

Lemma last_five_descending :
  StronglySorted (flip (Rank.ascending v)) (last_five_reversed order).
Proof.
  unfold last_five_reversed. apply StronglySorted_reverse.
  destruct Horder as [_ Hs].
  rewrite <- (take_drop (length order - 5) order) in Hs.
  now apply StronglySorted_app_1_r in Hs.
Qed.

(** The first of the last five, reversed, scores as much as any entry. *)
Lemma last_five_head_max (h : nat) (x : Q) :
  head (last_five_reversed order) = Some h → x ∈ v → (x <= score v h)%Q.
Proof.
  intros Hh Hx. apply list_elem_of_lookup in Hx as [j Hj].
  assert (x = score v j) as -> by (unfold score; now rewrite Hj).
  assert (j < length v) as Hlt by (eapply lookup_lt_Some; exact Hj).
  assert (last_five_reversed order !! 0 = Some h) as H0
    by (destruct (last_five_reversed order); [discriminate | exact Hh]).
  destruct (decide (j ∈ last_five_reversed order)) as [Hin | Hnin].
  - apply list_elem_of_lookup in Hin as [p Hp].
    destruct p as [|p].
    + rewrite H0 in Hp. injection Hp as ->. apply Qle_refl.
    + apply (StronglySorted_lookup _ _ 0 (S p) h j last_five_descending);
        [lia | exact H0 | exact Hp].
  - apply last_five_top; [| exact Hlt | exact Hnin].
    eapply list_elem_of_lookup_2. exact H0.
Qed.

(** When no two scores are equal there is one argsort only. *)
Lemma argsort_unique (order' : list nat) :
  Rank.distinct v → Rank.is_argsort v order' → order = order'.
Proof.
  intros Hd [Hp' Hs']. destruct Horder as [Hp Hs].
  apply (StronglySorted_unique_strong (Rank.ascending v)); [| exact Hs | exact Hs' |].
  - intros i j Hi Hj Hij Hji. rewrite Hp in Hi. rewrite Hp' in Hj.
    apply elem_of_seq in Hi, Hj. apply Hd; [lia | lia |].
    now apply Qle_antisym.
  - now rewrite Hp, Hp'.
Qed.

End AnyOrder.

(** The order of two equal scores is open: both are argsorts. *)
Lemma two_equal_scores (a : Q) :
  Rank.is_argsort [a; a] [0; 1] ∧ Rank.is_argsort [a; a] [1; 0].
Proof.
  assert (∀ i j, i ∈ [0; 1] → j ∈ [0; 1] → Rank.ascending [a; a] i j) as Hle.
  { intros i j Hi Hj. unfold Rank.ascending.
    repeat (apply elem_of_cons in Hi as [-> | Hi]); try (now apply elem_of_nil in Hi);
    repeat (apply elem_of_cons in Hj as [-> | Hj]); try (now apply elem_of_nil in Hj);
    apply Qle_refl. }
  split; (split; [| repeat constructor; apply Hle; set_solver]).
  - reflexivity.
  - apply Permutation_swap.
Qed.

End ScoreFacts.

(** ** The candidates of a sort that keeps the contract *)

Section CandidateFacts.

Import Image.

Variable argsort : list Q → list nat.
Hypothesis Hsorts : Rank.sorts argsort.
Variable v : list Q.

Lemma top_k_in_range (i : nat) : i ∈ top_k_indices argsort v → i < length v.
Proof. apply last_five_in_range, Hsorts. Qed.

Lemma top_k_length : length (top_k_indices argsort v) = Nat.min 5 (length v).
Proof. apply last_five_length, Hsorts. Qed.

(** The first candidate scores as much as any entry of the vector. *)
Lemma top_k_head_max (h : nat) (x : Q) :
  head (top_k_indices argsort v) = Some h → x ∈ v → (x <= score v h)%Q.
Proof. apply last_five_head_max, Hsorts. Qed.

(** With at most five classes every index is a candidate. *)
Lemma few_classes_all_candidates (i : nat) :
  length v ≤ 5 → i < length v → i ∈ top_k_indices argsort v.
Proof.
  intros H5 Hi. apply (last_five_elem v _ (Hsorts v)).
  replace (length v - 5) with 0 by lia. rewrite drop_0.
  destruct (Hsorts v) as [Hp _]. rewrite Hp. apply elem_of_seq. lia.
Qed.

(** When no two scores are equal, the candidates do not depend on the
    sort. *)
Lemma top_k_distinct :
  Rank.distinct v → top_k_indices argsort v = top_k_indices insertion_argsort v.
Proof.
  intros Hd. unfold top_k_indices. f_equal.
  exact (argsort_unique v _ (Hsorts v) _ Hd (insertion_is_argsort v)).
Qed.

End CandidateFacts.

Lemma insertion_sorts : Rank.sorts Image.insertion_argsort.
Proof. intros v. apply insertion_is_argsort. Qed.

Lemma distinctb_sound (v : list Q) : Rank.distinctb v = true → Rank.distinct v.
Proof.
  induction v as [|x v IH]; intros H i j Hi Hj E; [simpl in Hi; lia |].
  cbn [Rank.distinctb] in H. apply andb_true_iff in H as [Hx Hv].
  rewrite forallb_forall in Hx.
  assert (∀ k, k < length v → ¬ (x == Image.score v k)%Q) as Hne.
  { intros k Hk Hq. apply Qeq_bool_iff in Hq.
    assert (In (Image.score v k) v) as Hin.
    { unfold Image.score. destruct (lookup_lt_is_Some_2 v k Hk) as [y Hy].
      rewrite Hy. apply list_elem_of_In. eapply list_elem_of_lookup_2. exact Hy. }
    apply Hx in Hin. now rewrite Hq in Hin. }
  simpl in Hi, Hj. destruct i as [|i], j as [|j]; [reflexivity | | |].
  - exfalso. apply (Hne j); [lia | exact E].
  - exfalso. apply (Hne i); [lia | now symmetry].
  - f_equal. apply (IH Hv); [lia | lia | exact E].
Qed.

(** ** The maximum and its index *)

Section MaxFacts.

Import Image.

Lemma max_from_ge (best : Q) (v : list Q) : (best <= max_from best v)%Q.
Proof.
  revert best; induction v as [|x v IH]; intros best; simpl; [apply Qle_refl |].
  destruct (Qltb best x) eqn:E; [| apply IH].
  apply Qltb_lt in E. eapply Qle_trans; [apply Qlt_le_weak, E | apply IH].
Qed.

Lemma max_from_upper (best : Q) (v : list Q) (x : Q) :
  x ∈ v → (x <= max_from best v)%Q.
Proof.
  revert best; induction v as [|y v IH]; intros best Hx; [now apply elem_of_nil in Hx |].
  apply elem_of_cons in Hx as [-> | Hx]; simpl; [| now apply IH].
  destruct (Qltb best y) eqn:E; [apply max_from_ge |].
  apply Qltb_ge in E. eapply Qle_trans; [exact E | apply max_from_ge].
Qed.

Lemma max_from_elem (best : Q) (v : list Q) :
  max_from best v = best ∨ max_from best v ∈ v.
Proof.
  revert best; induction v as [|y v IH]; intros best; simpl; [now left |].
  destruct (Qltb best y).
  - destruct (IH y) as [H|H]; right; apply elem_of_cons.
    + left. exact H.
    + right. exact H.
  - destruct (IH best) as [H|H]; [now left |].
    right. apply elem_of_cons. now right.
Qed.

(** [np.max] returns an entry of the vector that no entry exceeds. *)
Lemma np_max_spec (v : list Q) (m : Q) :
  np_max v = Ok m → m ∈ v ∧ ∀ x, x ∈ v → (x <= m)%Q.
Proof.
  destruct v as [|y v]; simpl; [discriminate |]. intros [= <-]. split.
  - destruct (max_from_elem y v) as [-> | H]; apply elem_of_cons; [now left | now right].
  - intros x Hx. apply elem_of_cons in Hx as [-> | Hx];
      [apply max_from_ge | now apply max_from_upper].
Qed.

Lemma np_max_nonempty (v : list Q) : v ≠ [] → ∃ m, np_max v = Ok m.
Proof. destruct v; [congruence | eauto]. Qed.

Lemma argmax_from_spec (pre v : list Q) (best_i : nat) (best : Q) :
  best_i < length pre →
  score (pre ++ v) best_i = best →
  let r := argmax_from best_i best (length pre) v in
  r < length (pre ++ v) ∧ score (pre ++ v) r = max_from best v.
Proof.
  revert pre best_i best; induction v as [|y v IH]; intros pre best_i best Hlt Hs; simpl.
  - rewrite length_app. split; [lia | exact Hs].
  - assert (pre ++ y :: v = (pre ++ [y]) ++ v) as E by now rewrite <- app_assoc.
    assert (S (length pre) = length (pre ++ [y])) as El
      by (rewrite length_app; simpl; lia).
    destruct (Qltb best y); rewrite E, El; apply IH.
    + rewrite length_app; simpl; lia.
    + rewrite <- E. unfold score. now rewrite list_lookup_middle.
    + rewrite length_app; simpl; lia.
    + now rewrite <- E.
Qed.

(** [np.argmax] is in range and points at the value [np.max] returns. *)
Lemma np_argmax_spec (v : list Q) (m : Q) :
  np_max v = Ok m → ∃ i, np_argmax v = Ok i ∧ i < length v ∧ score v i = m.
Proof.
  destruct v as [|y v]; simpl; [discriminate |]. intros [= <-].
  exists (argmax_from 0 y 1 v). split; [reflexivity |].
  apply (argmax_from_spec [y] v 0 y); [simpl; lia | reflexivity].
Qed.

End MaxFacts.

(** ** Candidate selection *)

Section SelectFacts.

Import Image.

Variable argsort : list Q → list nat.
Variables (predictions : list Q) (class_names : gmap Z string).

#[local] Abbreviation skipped := (Rank.skipped class_names).


Lemma not_usable_iff (class_name : string) :
  usable class_name = false ↔ class_name = "PlantVillage" ∨ class_name = "Unknown".
Proof.
  unfold usable. rewrite negb_false_iff, orb_true_iff, !String.eqb_eq. reflexivity.
Qed.

(** The loop stops at the first usable candidate, or leaves the state as
    it was when every candidate is passed over. *)
Lemma walk_spec (candidates : list nat) (st : Z * Q) :
  (∃ pre idx post,
      candidates = pre ++ idx :: post ∧ Forall skipped pre ∧
      usable (class_name_of class_names (Z.of_nat idx)) = true ∧
      walk predictions class_names candidates st = (Z.of_nat idx, score predictions idx))
  ∨ (Forall skipped candidates ∧ walk predictions class_names candidates st = st).
Proof.
  induction candidates as [|c cands IH]; simpl.
  - right. split; [constructor | reflexivity].
  - destruct (usable (class_name_of class_names (Z.of_nat c))) eqn:E.
    + left. exists [], c, cands. repeat split; [constructor | exact E].
    + apply not_usable_iff in E.
      destruct IH as [(pre & idx & post & -> & Hpre & Hu & Hw) | [Hall Hw]].
      * left. exists (c :: pre), idx, post. repeat split; try assumption.
        constructor; assumption.
      * right. split; [constructor; assumption | exact Hw].
Qed.

(** Whatever list the sort returns, the resolver answers on a non-empty
    vector: with the first usable candidate, or with the argmax. *)
Lemma select_cases (top : Q) :
  np_max predictions = Ok top →
  ∃ idx,
    select argsort predictions class_names = Ok (Z.of_nat idx, score predictions idx) ∧
    ((∃ pre post,
        top_k_indices argsort predictions = pre ++ idx :: post ∧ Forall skipped pre ∧
        usable (class_name_of class_names (Z.of_nat idx)) = true)
     ∨ (Forall skipped (top_k_indices argsort predictions) ∧
        np_argmax predictions = Ok idx ∧ idx < length predictions ∧
        score predictions idx = top)).
Proof.
  intros Hmax. unfold select.
  destruct (walk_spec (top_k_indices argsort predictions) ((-1)%Z, 0%Q))
    as [(pre & idx & post & Hk & Hpre & Hu & Hw) | [Hall Hw]]; rewrite Hw.
  - exists idx. destruct (Z.eqb_spec (Z.of_nat idx) (-1)) as [Hneg|_]; [lia |].
    split; [reflexivity |]. left. now exists pre, post.
  - destruct (np_argmax_spec _ _ Hmax) as (i & Hi & Hlt & Hs).
    exists i. cbn [fst snd Z.eqb]. rewrite Hi, Hmax. subst top.
    split; [reflexivity |]. now right.
Qed.

(** A usable first candidate is the answer. *)
Lemma select_head (h : nat) :
  head (top_k_indices argsort predictions) = Some h →
  usable (class_name_of class_names (Z.of_nat h)) = true →
  select argsort predictions class_names = Ok (Z.of_nat h, score predictions h).
Proof.
  intros Hh Hu. unfold select.
  destruct (top_k_indices argsort predictions) as [|h' rest]; [discriminate |].
  injection Hh as ->. cbn [walk]. rewrite Hu.
  destruct (Z.eqb_spec (Z.of_nat h) (-1)); [lia | reflexivity].
Qed.

Hypothesis Hsorts : Rank.sorts argsort.

Lemma select_spec (top : Q) :
  np_max predictions = Ok top →
  ∃ idx,
    select argsort predictions class_names = Ok (Z.of_nat idx, score predictions idx) ∧
    idx < length predictions ∧
    ((∃ pre post,
        top_k_indices argsort predictions = pre ++ idx :: post ∧ Forall skipped pre ∧
        usable (class_name_of class_names (Z.of_nat idx)) = true)
     ∨ (Forall skipped (top_k_indices argsort predictions) ∧
        np_argmax predictions = Ok idx ∧ score predictions idx = top)).
Proof.
  intros Hmax. destruct (select_cases top Hmax) as (idx & Hsel & Hcase).
  exists idx. split; [exact Hsel |].
  destruct Hcase as [(pre & post & Hk & Hpre & Hu) | (Hall & Harg & Hlt & Hs)].
  - split.
    + apply (top_k_in_range argsort Hsorts). rewrite Hk. apply elem_of_app. right. now left.
    + left. now exists pre, post.
  - split; [exact Hlt |]. now right.
Qed.

(** A candidate that beats every other entry stands first. *)
Lemma head_unique_max (h0 : nat) :
  h0 < length predictions →
  (∀ i, i < length predictions → i ≠ h0 →
     (score predictions i < score predictions h0)%Q) →
  head (top_k_indices argsort predictions) = Some h0.
Proof.
  intros Hlt Hmax.
  pose proof (top_k_length argsort Hsorts predictions) as Hlen.
  destruct (top_k_indices argsort predictions) as [|h rest] eqn:E; [cbn [length] in Hlen; lia |].
  simpl. f_equal. destruct (decide (h = h0)) as [-> | Hne]; [reflexivity |].
  assert (h < length predictions) as Hh
    by (apply (top_k_in_range argsort Hsorts); rewrite E; now left).
  assert (score predictions h0 <= score predictions h)%Q as Hle.
  { apply (top_k_head_max argsort Hsorts predictions); [now rewrite E |].
    unfold score. destruct (lookup_lt_is_Some_2 predictions h0 Hlt) as [x Hx].
    rewrite Hx. eapply list_elem_of_lookup_2. exact Hx. }
  exfalso. apply (Qlt_not_le _ _ (Hmax h Hh Hne) Hle).
Qed.

(** When no two scores are equal, the answer does not depend on the sort. *)
Lemma select_distinct :
  Rank.distinct predictions →
  select argsort predictions class_names = select insertion_argsort predictions class_names.
Proof.
  intros Hd. unfold select. now rewrite (top_k_distinct argsort Hsorts predictions Hd).
Qed.

(** The confidence the resolver returns is the entry of the vector at
    the index it returns. *)
Lemma resolver_score (top : Q) :
  np_max predictions = Ok top →
  ∃ idx, predictions !! idx = Some (score predictions idx) ∧
    select argsort predictions class_names = Ok (Z.of_nat idx, score predictions idx).
Proof.
  intros Hmax. destruct (select_spec top Hmax) as (idx & Hsel & Hlt & _).
  exists idx. split; [| exact Hsel].
  unfold score. destruct (lookup_lt_is_Some_2 predictions idx Hlt) as [x ->].
  reflexivity.
Qed.

End SelectFacts.

(** ** Names from the label *)

Section LabelFacts.

Import Image.

Lemma truthy_false (disease_data : gmap string json) :
  truthy disease_data = false ↔ disease_data = ∅.
Proof.
  unfold truthy. rewrite bool_decide_eq_false.
  destruct (decide (disease_data = ∅)); intuition.
Qed.

Lemma truthy_true (disease_data : gmap string json) :
  truthy disease_data = true ↔ disease_data ≠ ∅.
Proof. unfold truthy. apply bool_decide_eq_true. Qed.

Lemma truthy_empty : truthy (∅ : gmap string json) = false.
Proof. reflexivity. Qed.

Lemma label_part_whole (label : string) (i : nat) :
  PyStr.contains "___" label = false → label_part label i = Ok label.
Proof. intros H. unfold label_part. now rewrite H. Qed.

(** The subscripts [0] and [1] never raise: the decomposition is total. *)
Lemma label_part_total (label : string) (i : nat) :
  i < 2 → ∃ part, label_part label i = Ok part.
Proof.
  intros Hi. unfold label_part.
  destruct (PyStr.contains "___" label) eqn:E; [| eauto].
  destruct (split_scan_two "_" "__" label "" E) as (x & y & rest & Hs).
  unfold PyStr.split. rewrite Hs.
  destruct i as [|[|i]]; [eauto | eauto | lia].
Qed.

Lemma label_part_crop (A B : string) :
  PyStr.contains "___" (A +:+ "__") = false →
  label_part (A +:+ "___" +:+ B) 0 = Ok (PyStr.replace "_" " " A).
Proof.
  intros HA. unfold label_part, PyStr.split.
  now rewrite contains_sep_app, split_scan_first.
Qed.

(** The condition is what stands between the first separator and the next. *)
Lemma label_part_condition (A B : string) :
  PyStr.contains "___" (A +:+ "__") = false →
  ∃ B1 rest, PyStr.split "___" B = B1 :: rest ∧
    label_part (A +:+ "___" +:+ B) 1 = Ok (PyStr.replace "_" " " B1).
Proof.
  intros HA. unfold label_part, PyStr.split.
  rewrite contains_sep_app, split_scan_first by exact HA.
  destruct (PyStr.split_scan "___" B 0 "") as [|B1 rest] eqn:E.
  - now apply split_scan_nonempty in E.
  - now exists B1, rest.
Qed.

Lemma label_part_condition_whole (A B : string) :
  PyStr.contains "___" (A +:+ "__") = false →
  PyStr.contains "___" B = false →
  label_part (A +:+ "___" +:+ B) 1 = Ok (PyStr.replace "_" " " B).
Proof.
  intros HA HB. destruct (label_part_condition A B HA) as (B1 & rest & Hs & ->).
  unfold PyStr.split in Hs. rewrite split_scan_whole in Hs by exact HB.
  now injection Hs as <- _.
Qed.

Lemma crop_name_total (disease_data : gmap string json) (label : string) :
  ∃ crop, crop_name disease_data label = Ok crop.
Proof.
  unfold crop_name. destruct (truthy disease_data); [eauto |].
  destruct (label_part_total label 0) as [c ->]; [lia | eauto].
Qed.

Lemma disease_name_total (disease_data : gmap string json) (label : string) :
  ∃ disease, disease_name disease_data label = Ok disease.
Proof.
  unfold disease_name. destruct (truthy disease_data); [eauto |].
  destruct (label_part_total label 1) as [c ->]; [lia | eauto].
Qed.

End LabelFacts.

(** ** The decision pipeline *)

Section PipelineFacts.

Import Image.

Variable argsort : list Q → list nat.
Variable py_repr : json → string.

Lemma bind_ok {A B} (m : res A) (f : A → res B) (b : B) :
  m ≫= f = Ok b → ∃ a, m = Ok a ∧ f a = Ok b.
Proof. destruct m as [a|e]; [eauto | discriminate]. Qed.

Lemma bind_raise {A B} (m : res A) (f : A → res B) (e : exn) :
  m ≫= f = Raise e → m = Raise e ∨ ∃ a, m = Ok a ∧ f a = Raise e.
Proof. destruct m as [a|e']; [eauto | intros [= ->]; now left]. Qed.

Lemma py_lower_ok (v : json) (s : string) :
  py_lower v = Ok s → ∃ d, v = JStr d ∧ s = PyStr.lower d.
Proof. destruct v; try discriminate. intros [= <-]. eauto. Qed.

Lemma result_str (label : string) (crop : json) (d : string) (conf : Q)
    (record : gmap string json) (t : Z) :
  result py_repr label crop (JStr d) conf record t
  = Ok (result_object py_repr label crop (JStr d) conf
          (default_health (PyStr.lower d)) record t).
Proof. reflexivity. Qed.

Lemma result_inv (label : string) (crop disease : json) (conf : Q)
    (record : gmap string json) (t : Z) (j : json) :
  result py_repr label crop disease conf record t = Ok j →
  ∃ d, disease = JStr d ∧
    j = result_object py_repr label crop (JStr d) conf
          (default_health (PyStr.lower d)) record t.
Proof.
  unfold result. intros H. apply bind_ok in H as (s & Hs & [= <-]).
  apply py_lower_ok in Hs as (d & -> & ->). eauto.
Qed.

(** The names are found and the condition is a string: the object is built. *)
Lemma assemble_ok (label : string) (record : gmap string json) (t : Z) (conf : Q)
    (d : string) :
  disease_name record label = Ok (JStr d) →
  ∃ crop, crop_name record label = Ok crop ∧
    assemble py_repr label record t conf
    = Ok (result_object py_repr label crop (JStr d) conf
            (default_health (PyStr.lower d)) record t).
Proof.
  intros Hd. destruct (crop_name_total record label) as [crop Hc].
  exists crop. split; [exact Hc |]. unfold assemble.
  rewrite Hc, Hd. reflexivity.
Qed.

Lemma assemble_inv (label : string) (record : gmap string json) (t : Z) (conf : Q)
    (j : json) :
  assemble py_repr label record t conf = Ok j →
  ∃ crop d, crop_name record label = Ok crop ∧ disease_name record label = Ok (JStr d) ∧
    j = result_object py_repr label crop (JStr d) conf
          (default_health (PyStr.lower d)) record t.
Proof.
  intros H. unfold assemble in H.
  apply bind_ok in H as (crop & Hc & H). apply bind_ok in H as (disease & Hd & H).
  apply result_inv in H as (d & -> & ->). now exists crop, d.
Qed.

(** With a store that is an object and a record that is one, or is
    missing, [enrich] assembles the result from the record's fields. *)
Lemma enrich_record (class_names : gmap Z string) (info : json) (t idx : Z) (conf : Q)
    (record : gmap string json) :
  record_at info (class_name_of class_names idx) = Some record →
  enrich py_repr class_names info t idx conf
  = assemble py_repr (class_name_of class_names idx) record t conf.
Proof.
  unfold record_at, enrich, py_get. destruct info as [| | | | | |entries]; try discriminate.
  cbn [mbind res_bind].
  destruct (default (JObj []) (dict_of entries !! class_name_of class_names idx));
    try discriminate.
  now intros [= <-].
Qed.

(** With any other store or record it raises: the value has no [get]. *)
Lemma enrich_no_record (class_names : gmap Z string) (info : json) (idx : Z) :
  record_at info (class_name_of class_names idx) = None →
  ∃ v, (∀ members, v ≠ JObj members) ∧
    ∀ t conf, enrich py_repr class_names info t idx conf = Raise (no_attribute v "get").
Proof.
  unfold record_at, enrich, py_get. set (label := class_name_of class_names idx).
  destruct (label_part_total label 0) as [c Hc]; [lia |].
  destruct (label_part_total label 1) as [d Hd]; [lia |].
  destruct info as [| | | | | |entries];
    try (intros _; eexists; split; [| reflexivity]; discriminate).
  cbn [mbind res_bind].
  destruct (default (JObj []) (dict_of entries !! label)) as [| | | | | |members] eqn:E;
    try discriminate; intros _;
    match goal with
    | |- ∃ v, _ ∧ ∀ _ _, (if py_truthy ?x then _ else _) = _ =>
        exists x; split; [discriminate |]; intros _ _;
        destruct (py_truthy x); [reflexivity | now rewrite Hc, Hd]
    end.
Qed.

Lemma enrich_ok (class_names : gmap Z string) (info : json) (t idx : Z) (conf : Q)
    (record : gmap string json) (d : string) :
  let label := class_name_of class_names idx in
  record_at info label = Some record →
  disease_name record label = Ok (JStr d) →
  ∃ crop, crop_name record label = Ok crop ∧
    enrich py_repr class_names info t idx conf
    = Ok (result_object py_repr label crop (JStr d) conf
            (default_health (PyStr.lower d)) record t).
Proof.
  intros label Hrec Hd. rewrite (enrich_record _ _ _ _ _ _ Hrec).
  now apply assemble_ok.
Qed.

Lemma enrich_inv (class_names : gmap Z string) (info : json) (t idx : Z) (conf : Q)
    (j : json) :
  let label := class_name_of class_names idx in
  enrich py_repr class_names info t idx conf = Ok j →
  ∃ record crop d,
    record_at info label = Some record ∧
    crop_name record label = Ok crop ∧ disease_name record label = Ok (JStr d) ∧
    j = result_object py_repr label crop (JStr d) conf
          (default_health (PyStr.lower d)) record t.
Proof.
  intros label H. destruct (record_at info label) as [record|] eqn:Hrec.
  - rewrite (enrich_record _ _ _ _ _ _ Hrec) in H.
    apply assemble_inv in H as (crop & d & Hc & Hd & ->). now exists record, crop, d.
  - destruct (enrich_no_record class_names info idx Hrec) as (v & _ & Hv).
    rewrite Hv in H. discriminate.
Qed.

Lemma py_index_raise {A} (l : list A) (i : nat) (e : exn) :
  py_index l i = Raise e → isinstance_Exception e = true.
Proof. unfold py_index. destruct (l !! i); [discriminate |]. now intros [= <-]. Qed.

Lemma label_part_raise (label : string) (i : nat) (e : exn) :
  label_part label i = Raise e → isinstance_Exception e = true.
Proof.
  unfold label_part. destruct (PyStr.contains "___" label); [| discriminate].
  intros H. apply bind_raise in H as [H | (a & _ & H)]; [| discriminate].
  now apply py_index_raise in H.
Qed.

Lemma py_lower_raise (v : json) (e : exn) :
  py_lower v = Raise e → isinstance_Exception e = true.
Proof. destruct v; simpl; try discriminate; now intros [= <-]. Qed.

Lemma assemble_raise (label : string) (record : gmap string json) (t : Z) (conf : Q)
    (e : exn) :
  assemble py_repr label record t conf = Raise e → isinstance_Exception e = true.
Proof.
  unfold assemble, crop_name, disease_name, result. intros H.
  repeat match type of H with
  | (if ?c then _ else _) ≫= _ = Raise _ => destruct c
  | _ ≫= _ = Raise _ => apply bind_raise in H as [H | (? & _ & H)]
  | Ok _ = Raise _ => discriminate H
  end; eauto using label_part_raise, py_lower_raise.
Qed.

(** Whatever the decision logic raises is an [Exception]. *)
Lemma enrich_raise (class_names : gmap Z string) (info : json) (t idx : Z) (conf : Q)
    (e : exn) :
  enrich py_repr class_names info t idx conf = Raise e → isinstance_Exception e = true.
Proof.
  intros H. destruct (record_at info (class_name_of class_names idx)) as [record|] eqn:Hrec.
  - rewrite (enrich_record _ _ _ _ _ _ Hrec) in H. now apply assemble_raise in H.
  - destruct (enrich_no_record class_names info idx Hrec) as (v & _ & Hv).
    rewrite Hv in H. now injection H as <-.
Qed.

Lemma np_max_raise (v : list Q) (e : exn) :
  np_max v = Raise e → isinstance_Exception e = true.
Proof. destruct v; simpl; [| discriminate]. now intros [= <-]. Qed.

Lemma select_ok (predictions : list Q) (class_names : gmap Z string) (top : Q) :
  np_max predictions = Ok top → ∃ r, select argsort predictions class_names = Ok r.
Proof.
  intros H. destruct (select_cases argsort predictions class_names top H) as (i & -> & _).
  eauto.
Qed.

Lemma diagnose_raise (predictions : list Q) (class_names : gmap Z string)
    (info : json) (t : Z) (e : exn) :
  diagnose argsort py_repr predictions class_names info t = Raise e →
  isinstance_Exception e = true.
Proof.
  unfold diagnose. intros H.
  apply bind_raise in H as [H | (top & Htop & H)]; [now apply np_max_raise in H |].
  destruct (Qltb top threshold); [discriminate |].
  destruct (select_ok predictions class_names top Htop) as [[i c] Hs].
  rewrite Hs in H. simpl in H. now apply enrich_raise in H.
Qed.

Lemma diagnose_reject (predictions : list Q) (class_names : gmap Z string)
    (info : json) (t : Z) (top : Q) :
  np_max predictions = Ok top → (top < threshold)%Q →
  diagnose argsort py_repr predictions class_names info t = Ok invalid_image.
Proof.
  intros Hmax Hlt. unfold diagnose. rewrite Hmax. simpl.
  apply Qltb_lt in Hlt. now rewrite Hlt.
Qed.

Lemma diagnose_accept (predictions : list Q) (class_names : gmap Z string)
    (info : json) (t : Z) (top : Q) (idx : Z) (conf : Q) :
  np_max predictions = Ok top → (threshold <= top)%Q →
  select argsort predictions class_names = Ok (idx, conf) →
  diagnose argsort py_repr predictions class_names info t
  = enrich py_repr class_names info t idx conf.
Proof.
  intros Hmax Hge Hs. unfold diagnose. rewrite Hmax. simpl.
  apply Qltb_ge in Hge. now rewrite Hge, Hs.
Qed.

Lemma diagnose_distinct (predictions : list Q) (class_names : gmap Z string)
    (info : json) (t : Z) :
  Rank.sorts argsort → Rank.distinct predictions →
  diagnose argsort py_repr predictions class_names info t
  = diagnose insertion_argsort py_repr predictions class_names info t.
Proof.
  intros Hsorts Hd. unfold diagnose.
  now rewrite (select_distinct argsort predictions class_names Hsorts Hd).
Qed.

Lemma predict_reaches (w : env) (class_names : gmap Z string)
    (info : json) (predictions : list Q) :
  reaches_inference w class_names info predictions →
  body argsort py_repr w = diagnose argsort py_repr predictions class_names info (total_time w) ∧
  predict argsort py_repr w =
    match diagnose argsort py_repr predictions class_names info (total_time w) with
    | Ok j => Emitted j
    | Raise e => Emitted (model_error (exn_msg e))
    end.
Proof.
  intros (He & Hi & Hl & Hc & Hd & Hdl & Hp & Hinf).
  assert (body argsort py_repr w
          = diagnose argsort py_repr predictions class_names info (total_time w)) as Hb.
  { unfold body. rewrite Hl, Hc, Hd, Hdl, Hp, Hinf. reflexivity. }
  split; [exact Hb |]. unfold predict. rewrite He, Hi, Hb. simpl.
  destruct (diagnose argsort py_repr predictions class_names info (total_time w)) as [j|e] eqn:E;
    [reflexivity |].
  now rewrite (diagnose_raise _ _ _ _ _ E).
Qed.

End PipelineFacts.

(** ** Rounding *)

Section RoundFacts.

Import Image.

Lemma round_half_even_close (q : Q) :
  (q - (1 # 2) <= inject_Z (round_half_even q) <= q + (1 # 2))%Q.
Proof.
  unfold round_half_even.
  pose proof (Qfloor_le q) as Hlo. pose proof (Qlt_floor q) as Hhi.
  rewrite inject_Z_plus in Hhi. change (inject_Z 1) with 1%Q in Hhi.
  destruct (q - inject_Z (Qfloor q) ?= 1 # 2)%Q eqn:E.
  - apply Qeq_alt in E. destruct (Z.even (Qfloor q)).
    + split; lra.
    + rewrite inject_Z_plus. change (inject_Z 1) with 1%Q. split; lra.
  - apply Qlt_alt in E. split; lra.
  - apply Qgt_alt in E. rewrite inject_Z_plus. change (inject_Z 1) with 1%Q. split; lra.
Qed.

Lemma round_half_even_tie (q : Q) :
  (q - inject_Z (Qfloor q) == 1 # 2)%Q → Z.even (round_half_even q) = true.
Proof.
  intros H. unfold round_half_even. apply Qeq_alt in H. rewrite H.
  destruct (Z.even (Qfloor q)) eqn:E; [exact E |].
  rewrite Z.add_1_r, Z.even_succ, <- Z.negb_even, E. reflexivity.
Qed.

(** [round(x, 4)] is a multiple of 1/10000 within half a unit of [x],
    the even multiple when [x] lies halfway. *)
Lemma py_round_4 (x : Q) :
  ∃ m : Z, py_round x 4 = (m # 10000)%Q ∧
    (x * 10000 - (1 # 2) <= inject_Z m <= x * 10000 + (1 # 2))%Q.
Proof.
  exists (round_half_even (x * inject_Z 10000)). split; [reflexivity |].
  apply (round_half_even_close (x * inject_Z 10000)).
Qed.

End RoundFacts.

(** ** Fields of the result *)

Section FieldFacts.

Import Image.

Variable py_repr : json → string.

Lemma default_not_null (dflt : json) (record : gmap string json) (k : string) :
  dflt ≠ JNull → (∀ v, record !! k = Some v → v ≠ JNull) →
  default dflt (record !! k) ≠ JNull.
Proof. intros Hd Hr. destruct (record !! k) as [v|] eqn:E; simpl; eauto. Qed.

Lemma crop_name_not_null (record : gmap string json) (label : string) (crop : json) :
  (∀ v, record !! "crop" = Some v → v ≠ JNull) →
  crop_name record label = Ok crop → crop ≠ JNull.
Proof.
  intros Hr. unfold crop_name. destruct (truthy record).
  - intros [= <-]. now apply default_not_null.
  - intros H. apply bind_ok in H as (c & _ & [= <-]). discriminate.
Qed.

(** The condition is a string as soon as the record's [disease], if it has
    one, is a string. *)
Lemma disease_name_str (record : gmap string json) (label : string) :
  (∀ v, record !! "disease" = Some v → ∃ s, v = JStr s) →
  ∃ d, disease_name record label = Ok (JStr d).
Proof.
  intros Hr. unfold disease_name. destruct (truthy record).
  - destruct (record !! "disease") as [v|] eqn:E; simpl; [| eauto].
    destruct (Hr v eq_refl) as [s ->]. eauto.
  - destruct (label_part_total label 1) as [d ->]; [lia | eauto].
Qed.

Lemma names_ignore_label (record : gmap string json) (a b : string) :
  record ≠ ∅ →
  crop_name record a = crop_name record b ∧ disease_name record a = disease_name record b.
Proof.
  intros H. apply truthy_true in H. unfold crop_name, disease_name. now rewrite H.
Qed.

End FieldFacts.

(** ** The handlers *)

Section HandlerFacts.

Variable argsort : list Q → list nat.
Variable py_repr : json → string.

Lemma image_raises_body (w : Image.env) (e : exn) :
  Image.raises argsort py_repr w e → Image.body argsort py_repr w = Raise e.
Proof.
  intros H. unfold Image.body.
  destruct H as [e H1 | e H1 H2 | e cn H1 H2 H3 | e cn info H1 H2 H3 H4 H5
                | e cn info H1 H2 H3 H4 H5 H6 | e cn info v H1 H2 H3 H4 H5 H6 H7];
    rewrite H1; try rewrite H2; try rewrite H3; try rewrite H4;
    try rewrite H5; try rewrite H6; try exact H7; reflexivity.
Qed.

Lemma image_download_body (w : Image.env) (e : exn) :
  Image.reaches_download w → Image.download w = Raise e → isinstance_Exception e = true →
  Image.body argsort py_repr w = Ok (model_error ("Failed to download image: " +:+ exn_msg e)).
Proof.
  intros (cn & info & H1 & H2 & H3) H4 H5. unfold Image.body.
  rewrite H1, H2, H3, H4. simpl. now rewrite H5.
Qed.

Lemma soil_raises_body (w : Soil.env) (features_str : string) (e : exn) :
  Soil.raises w features_str e → Soil.body w features_str = Raise e.
Proof.
  intros H. unfold Soil.body.
  destruct H as [e H1 | e H1 H2 | e values H1 H2 H3];
    rewrite H1; try rewrite H2; simpl; try rewrite H3; reflexivity.
Qed.

End HandlerFacts.

(** * The claims *)

(** ** C3: the candidate list *)

(** C3, as the specification states the tie rule, fails.  The rule would
    have to hold for every sort that keeps the contract of [argsort]; the
    insertion sort keeps it, leaves two equal scores in index order, and
    the reversal then puts the higher index first: on the scores
    [0.5, 0.5] the candidates are [[1; 0]]. *)
Lemma tie_lower_index_first_fails :
  ¬ (∀ argsort, Rank.sorts argsort →
       ∀ scores, Rank.lower_index_first scores (Image.top_k_indices argsort scores)).
Proof.
  intros H.
  specialize (H Image.insertion_argsort insertion_sorts [1 # 2; 1 # 2]%Q 0 1 1 0).
  assert (1 < 0) as Habs; [| lia].
  apply H; [lia | reflexivity | reflexivity | reflexivity].
Qed.

(** C3 (amended): for every score vector, the last five of any argsort
    of it, reversed, hold min(5, n) distinct valid indices in descending
    order of score, and no index left out scores more than an index kept.
    The candidate list is such a list for every sort that keeps the
    contract of [argsort], and it is the same list for all of them when no
    two scores are equal.  The order of candidates with equal scores is not
    fixed: both orders of two equal scores are argsorts, so neither "lower
    index first" nor "higher index first" holds of every sort. *)
Theorem top_k_descending_tie_order_open (scores : list Q) :
  (∀ order, Rank.is_argsort scores order →
     let candidates := Image.last_five_reversed order in
     length candidates = Nat.min 5 (length scores) ∧
     NoDup candidates ∧
     (∀ i, i ∈ candidates → i < length scores) ∧
     (∀ i j, i ∈ candidates → j < length scores → j ∉ candidates →
        (Image.score scores j <= Image.score scores i)%Q) ∧
     (∀ p q i j, p < q → candidates !! p = Some i → candidates !! q = Some j →
        (Image.score scores j <= Image.score scores i)%Q)) ∧
  (∀ argsort, Rank.sorts argsort →
     Rank.is_argsort scores (argsort scores) ∧
     Image.top_k_indices argsort scores = Image.last_five_reversed (argsort scores) ∧
     (Rank.distinct scores →
      ∀ argsort', Rank.sorts argsort' →
        Image.top_k_indices argsort' scores = Image.top_k_indices argsort scores)) ∧
  (∀ a : Q,
     Rank.is_argsort [a; a] [0; 1] ∧ Image.last_five_reversed [0; 1] = [1; 0] ∧
     ¬ Rank.lower_index_first [a; a] [1; 0] ∧
     Rank.is_argsort [a; a] [1; 0] ∧ Image.last_five_reversed [1; 0] = [0; 1] ∧
     ¬ Rank.higher_index_first [a; a] [0; 1]).
Proof.
  split; [| split].
  - intros order Horder candidates.
    split; [now apply last_five_length |].
    split; [now apply (last_five_NoDup scores) |].
    split; [now apply last_five_in_range |].
    split; [now apply last_five_top |].
    intros p q i j Hpq Hp Hq.
    exact (StronglySorted_lookup _ _ _ _ _ _ (last_five_descending scores order Horder)
             Hpq Hp Hq).
  - intros argsort Hsorts. split; [apply Hsorts |]. split; [reflexivity |].
    intros Hd argsort' Hsorts'.
    now rewrite (top_k_distinct argsort Hsorts scores Hd),
                (top_k_distinct argsort' Hsorts' scores Hd).
  - intros a. destruct (two_equal_scores a) as [H01 H10].
    split; [exact H01 |]. split; [reflexivity |]. split; [| split; [exact H10 | split]].
    + intros H. specialize (H 0 1 1 0). assert (1 < 0) as Habs; [| lia].
      apply H; [lia | reflexivity | reflexivity | reflexivity].
    + reflexivity.
    + intros H. specialize (H 0 1 0 1). assert (1 < 0) as Habs; [| lia].
      apply H; [lia | reflexivity | reflexivity | reflexivity].
Qed.

(** The candidates of seven distinct scores, whatever the sort. *)
Example top_k_of_seven (argsort : list Q → list nat) :
  Rank.sorts argsort →
  Image.top_k_indices argsort [10 # 100; 40 # 100; 20 # 100; 5 # 100; 15 # 100; 6 # 100; 4 # 100]%Q
  = [1; 2; 4; 0; 5].
Proof.
  intros Hsorts. rewrite (top_k_distinct argsort Hsorts); [reflexivity |].
  now apply distinctb_sound.
Qed.

(** ** C4: label decomposition *)

(** C4, as stated, fails on a label with a second separator: the parts
    after the second separator are dropped. *)
Lemma decompose_two_separators_fails :
  ¬ (∀ A B : string,
       Image.crop_name ∅ (A +:+ "___" +:+ B) = Ok (JStr (PyStr.replace "_" " " A)) ∧
       Image.disease_name ∅ (A +:+ "___" +:+ B) = Ok (JStr (PyStr.replace "_" " " B))).
Proof.
  intros H. destruct (H "A" "B___C") as [_ H2]. vm_compute in H2. discriminate.
Qed.

(** C4 (amended): with no metadata record (absent or empty), decomposition
    is total; a label with no separator is both crop and condition; for a
    label [A ___ B] whose first separator is the one written (no ["___"]
    starts inside [A]), the crop is [A] and the condition is [B] up to its
    next separator, each with underscores replaced by spaces - so the
    condition is [B] itself when [B] holds no separator. *)
Theorem decompose_label (disease_data : gmap string json) :
  Image.truthy disease_data = false →
  (∀ label, ∃ crop condition,
     Image.crop_name disease_data label = Ok (JStr crop) ∧
     Image.disease_name disease_data label = Ok (JStr condition)) ∧
  (∀ label, PyStr.contains "___" label = false →
     Image.crop_name disease_data label = Ok (JStr label) ∧
     Image.disease_name disease_data label = Ok (JStr label)) ∧
  (∀ A B, PyStr.contains "___" (A +:+ "__") = false →
     Image.crop_name disease_data (A +:+ "___" +:+ B) = Ok (JStr (PyStr.replace "_" " " A)) ∧
     (∃ B1 rest, PyStr.split "___" B = B1 :: rest ∧
        Image.disease_name disease_data (A +:+ "___" +:+ B)
        = Ok (JStr (PyStr.replace "_" " " B1))) ∧
     (PyStr.contains "___" B = false →
        Image.disease_name disease_data (A +:+ "___" +:+ B)
        = Ok (JStr (PyStr.replace "_" " " B)))).
Proof.
  intros Hd. unfold Image.crop_name, Image.disease_name. rewrite Hd.
  split; [| split].
  - intros label.
    destruct (label_part_total label 0) as [c ->]; [lia |].
    destruct (label_part_total label 1) as [d ->]; [lia |].
    now exists c, d.
  - intros label H. now rewrite !label_part_whole.
  - intros A B HA. rewrite label_part_crop by exact HA. split; [reflexivity |]. split.
    + destruct (label_part_condition A B HA) as (B1 & rest & Hs & ->).
      now exists B1, rest.
    + intros HB. now rewrite label_part_condition_whole.
Qed.

Lemma decompose_label_witness :
  Image.truthy (∅ : gmap string json) = false ∧
  Image.crop_name ∅ "Pepper__bell___Bacterial_spot" = Ok (JStr "Pepper  bell") ∧
  Image.disease_name ∅ "Pepper__bell___Bacterial_spot" = Ok (JStr "Bacterial spot").
Proof.
  split; [reflexivity |].
  destruct (decompose_label ∅ truthy_empty) as (_ & _ & H).
  destruct (H "Pepper__bell" "Bacterial_spot" eq_refl) as (Hc & _ & Hd).
  split; [exact Hc | exact (Hd eq_refl)].
Defined.

(** ** C1: the candidate resolver *)



(** The scenario of the specification, whatever the sort: the two
    artifact candidates are passed over and the third is returned with its
    score 0.4; and an artifact at 0.9 gives way to a usable class at 0.8. *)
Example resolver_skips_artifacts (argsort : list Q → list nat) :
  Rank.sorts argsort →
  Image.top_k_indices argsort [6 # 10; 5 # 10; 4 # 10]%Q = [0; 1; 2] ∧
  Image.select argsort [6 # 10; 5 # 10; 4 # 10]%Q
    {[ 0%Z := "PlantVillage"; 2%Z := "Wheat___Rust" ]}
  = Ok (2%Z, (4 # 10)%Q) ∧
  Image.select argsort [9 # 10; 8 # 10]%Q
    {[ 0%Z := "PlantVillage"; 1%Z := "Tomato___Healthy" ]}
  = Ok (1%Z, (8 # 10)%Q).
Proof.
  intros Hsorts. split; [| split].
  - rewrite (top_k_distinct argsort Hsorts); [reflexivity | now apply distinctb_sound].
  - rewrite (select_distinct argsort _ _ Hsorts); [reflexivity | now apply distinctb_sound].
  - rewrite (select_distinct argsort _ _ Hsorts); [reflexivity | now apply distinctb_sound].
Qed.

(** ** C2: the confidence gate *)

(** C2: once [predict] holds a non-empty score vector, if every score is
    below 0.15 it emits the rejected shape [{success: true, status:
    "invalid_image", message}], whichever index holds the maximum; if some
    score reaches 0.15 it does not reject: the candidate is selected and the
    result is the one built from it. *)
Theorem confidence_gate (argsort : list Q → list nat) (py_repr : json → string)
    (w : Image.env) (class_names : gmap Z string) (info : json) (predictions : list Q) :
  Image.reaches_inference w class_names info predictions → predictions ≠ [] →
  ((∀ x, x ∈ predictions → (x < Image.threshold)%Q) →
     Image.predict argsort py_repr w = Emitted Image.invalid_image) ∧
  ((∃ x, x ∈ predictions ∧ (Image.threshold <= x)%Q) →
     ∃ idx,
       Image.select argsort predictions class_names
       = Ok (Z.of_nat idx, Image.score predictions idx) ∧
       Image.body argsort py_repr w
       = Image.enrich py_repr class_names info (Image.total_time w)
           (Z.of_nat idx) (Image.score predictions idx) ∧
       Image.predict argsort py_repr w ≠ Emitted Image.invalid_image) ∧
  (∃ message,
     Image.invalid_image
     = JObj [("success", JBool true); ("status", JStr "invalid_image");
             ("message", JStr message)]).
Proof.
  intros Hreach Hne.
  destruct (predict_reaches argsort py_repr w class_names info predictions Hreach)
    as [Hbody Hpred].
  destruct (np_max_nonempty predictions Hne) as [top Hmax].
  destruct (np_max_spec predictions top Hmax) as [Hin Hub].
  split; [| split].
  - intros Hall. rewrite Hpred.
    now rewrite (diagnose_reject argsort py_repr predictions class_names info _ top Hmax
                   (Hall _ Hin)).
  - intros (x & Hx & Hge).
    assert (Image.threshold <= top)%Q as Htop by (eapply Qle_trans; [exact Hge | now apply Hub]).
    destruct (select_cases argsort predictions class_names top Hmax) as (idx & Hsel & _).
    exists idx. split; [exact Hsel |].
    pose proof (diagnose_accept argsort py_repr predictions class_names info
                  (Image.total_time w) top _ _ Hmax Htop Hsel) as Hd.
    split; [now rewrite Hbody |].
    rewrite Hpred, Hd.
    destruct (Image.enrich py_repr class_names info (Image.total_time w) (Z.of_nat idx)
                (Image.score predictions idx)) as [j|e] eqn:E.
    + apply enrich_inv in E as (record & crop & d & _ & _ & _ & ->). discriminate.
    + discriminate.
  - eexists. reflexivity.
Qed.

Lemma confidence_gate_witness :
  Image.predict Image.insertion_argsort Sample.py_repr
    (Sample.world [5 # 100; 6 # 100; 4 # 100]%Q)
  = Emitted Image.invalid_image.
Proof.
  refine (proj1 (confidence_gate Image.insertion_argsort Sample.py_repr
                   (Sample.world [5 # 100; 6 # 100; 4 # 100]%Q)
                   Sample.class_names (JObj []) [5 # 100; 6 # 100; 4 # 100]%Q _ _) _).
  - repeat split; reflexivity.
  - discriminate.
  - intros x Hx. repeat (apply elem_of_cons in Hx as [-> | Hx]; [reflexivity |]).
    now apply elem_of_nil in Hx.
Defined.

(** ** C5: the assembled result *)

(** C5, as stated for every metadata store, fails: a [null] in a record
    is handed on as it is. *)
Lemma null_field_passes_through :
  ¬ (∀ info : json,
       ∃ j, Image.enrich Sample.py_repr Sample.class_names info 840 1 (9 # 10) = Ok j ∧
            Forall (Image.populated j) Image.required_fields).
Proof.
  intros H. destruct (H Sample.null_crop) as (j & Hj & Hall).
  vm_compute in Hj. injection Hj as <-.
  apply Forall_cons in Hall as [_ Hall]. apply Forall_cons in Hall as [(v & Hv & Hnn) _].
  vm_compute in Hv. injection Hv as <-. now apply Hnn.
Qed.

(** C5 (amended): for every resolved index and confidence and every
    value the metadata file holds.
    - The two advisory blocks of an emitted result are the same constants.
    - When the store is an object and its member for the label is an
      object or is missing, and the [disease] of that record, if it has
      one, is a string, the result is emitted.  [predictedClass] is the
      label and [confidence] the confidence rounded to four places.  Each
      of [plantHealth], [diagnosis], [treatment], [organicTreatment],
      [irrigationAdvice], [fertilizerAdvice], [growthStage.stage],
      [growthStage.daysToHarvest] and [tutorial] holds the value the record
      has for its field, as it is, and the default of the code when the
      record has no such field.  [crop] and [disease] are the record's
      (["Unknown"] for a field it lacks) when the record has any field, and
      the parts of the label otherwise.  If moreover no field of the record
      is [null], every required field is present and not [null]; so it is
      with a store that has no member for the label.
    - With a store or a record of any other kind ([null], a list, a
      string, a number) no result is assembled: the value has no [get], the
      lookup raises, and [predict] emits the [model_error] with the message
      of that exception. *)
Theorem result_fully_populated (py_repr : json → string) (class_names : gmap Z string)
    (info : json) (t idx : Z) (confidence : Q) :
  let label := Image.class_name_of class_names idx in
  (∀ j, Image.enrich py_repr class_names info t idx confidence = Ok j →
     jpath ["data"; "soilInsights"] j = Some Image.soil_insights ∧
     jpath ["data"; "weatherImpact"] j = Some Image.weather_impact) ∧
  (∀ record, Image.record_at info label = Some record →
     (∀ v, record !! "disease" = Some v → ∃ s, v = JStr s) →
     ∃ j crop disease,
       Image.enrich py_repr class_names info t idx confidence = Ok j ∧
       (record ≠ ∅ →
          crop = default (JStr "Unknown") (record !! "crop") ∧
          JStr disease = default (JStr "Unknown") (record !! "disease")) ∧
       (record = ∅ →
          ∃ c, Image.label_part label 0 = Ok c ∧ crop = JStr c ∧
               Image.label_part label 1 = Ok disease) ∧
       jpath ["data"; "predictedClass"] j = Some (JStr label) ∧
       jpath ["data"; "crop"] j = Some crop ∧
       jpath ["data"; "disease"] j = Some (JStr disease) ∧
       jpath ["data"; "confidence"] j = Some (JFloat (Image.py_round confidence 4)) ∧
       jpath ["data"; "plantHealth"] j
       = Some (default (JStr (Image.default_health (PyStr.lower disease)))
                 (record !! "health_status")) ∧
       jpath ["data"; "recommendations"; "diagnosis"] j
       = Some (default (JStr (Image.diagnosis_text py_repr (JStr disease) crop confidence))
                 (record !! "diagnosis")) ∧
       jpath ["data"; "recommendations"; "treatment"] j
       = Some (default (JArr [JStr "Consult a local agronomist for treatment advice."])
                 (record !! "chemical_treatment")) ∧
       jpath ["data"; "recommendations"; "organicTreatment"] j
       = Some (default
                 (JArr [JStr "Apply neem-based organic pesticide as a general precaution."])
                 (record !! "organic_treatment")) ∧
       jpath ["data"; "recommendations"; "irrigationAdvice"] j
       = Some (default (JStr "Monitor soil moisture; avoid waterlogging.")
                 (record !! "irrigation_advice")) ∧
       jpath ["data"; "recommendations"; "fertilizerAdvice"] j
       = Some (default (JStr "Maintain balanced NPK nutrition.")
                 (record !! "fertilizer_advice")) ∧
       jpath ["data"; "growthStage"; "stage"] j
       = Some (default (JStr "Unknown") (record !! "growth_stage")) ∧
       jpath ["data"; "growthStage"; "daysToHarvest"] j
       = Some (default (JInt 0) (record !! "days_to_harvest")) ∧
       jpath ["data"; "tutorial"] j = Some (default (JArr []) (record !! "tutorial")) ∧
       ((∀ k v, record !! k = Some v → v ≠ JNull) →
        Forall (Image.populated j) Image.required_fields)) ∧
  (∀ entries, info = JObj entries → Image.dict_of entries !! label = None →
     ∃ j, Image.enrich py_repr class_names info t idx confidence = Ok j ∧
          Forall (Image.populated j) Image.required_fields) ∧
  (Image.record_at info label = None →
     ∃ v, (∀ members, v ≠ JObj members) ∧
          Image.enrich py_repr class_names info t idx confidence
          = Raise (Image.no_attribute v "get") ∧
          ∀ argsort w predictions top,
            Image.reaches_inference w class_names info predictions →
            Image.np_max predictions = Ok top → (Image.threshold <= top)%Q →
            Image.select argsort predictions class_names = Ok (idx, confidence) →
            Image.predict argsort py_repr w
            = Emitted (model_error
                ("'" +:+ Image.type_name v +:+ "' object has no attribute 'get'"))).
Proof.
  intros label.
  assert (∀ record, Image.record_at info label = Some record →
          (∀ v, record !! "disease" = Some v → ∃ s, v = JStr s) →
          ∃ j crop d,
            Image.enrich py_repr class_names info t idx confidence = Ok j ∧
            Image.crop_name record label = Ok crop ∧
            Image.disease_name record label = Ok (JStr d) ∧
            j = Image.result_object py_repr label crop (JStr d) confidence
                  (Image.default_health (PyStr.lower d)) record t ∧
            ((∀ k v, record !! k = Some v → v ≠ JNull) →
             Forall (Image.populated j) Image.required_fields)) as Hmain.
  { intros record Hrec Hstr.
    destruct (disease_name_str record label Hstr) as [d Hd].
    destruct (enrich_ok py_repr class_names info t idx confidence record d Hrec Hd)
      as (crop & Hc & Hj).
    eexists. exists crop, d. split; [exact Hj |]. split; [exact Hc |]. split; [exact Hd |].
    split; [reflexivity |]. intros Hnn.
    pose proof (crop_name_not_null record label crop (Hnn "crop") Hc) as Hcrop.
    unfold Image.required_fields.
    repeat (apply Forall_cons; split); try solve [constructor].
    all: (eexists; split; [reflexivity |]);
      try discriminate; try exact Hcrop;
      apply default_not_null; try discriminate; apply Hnn. }
  split; [| split; [| split]].
  - intros j Hj. apply enrich_inv in Hj as (record & crop & d & _ & _ & _ & ->).
    split; reflexivity.
  - intros record Hrec Hstr.
    destruct (Hmain record Hrec Hstr) as (j & crop & d & Hj & Hc & Hd & -> & Hpop).
    eexists. exists crop, d. split; [exact Hj |]. split; [| split].
    + intros Hne. apply truthy_true in Hne.
      unfold Image.crop_name, Image.disease_name in Hc, Hd. rewrite Hne in Hc, Hd.
      injection Hc as <-. injection Hd as <-. split; reflexivity.
    + intros He. apply truthy_false in He.
      unfold Image.crop_name, Image.disease_name in Hc, Hd. rewrite He in Hc, Hd.
      apply bind_ok in Hc as (c & Hc & [= <-]). apply bind_ok in Hd as (d' & Hd & [= <-]).
      now exists c.
    + repeat (split; [reflexivity |]). exact Hpop.
  - intros entries -> Hnone.
    destruct (Hmain ∅) as (j & crop & d & Hj & _ & _ & _ & Hpop).
    + unfold Image.record_at. now rewrite Hnone.
    + intros v. rewrite lookup_empty. discriminate.
    + exists j. split; [exact Hj |]. apply Hpop. intros k v. rewrite lookup_empty. discriminate.
  - intros Hrec. destruct (enrich_no_record py_repr class_names info idx Hrec)
      as (v & Hv & Hraise).
    exists v. split; [exact Hv |]. split; [apply Hraise |].
    intros argsort w predictions top Hreach Hmax Hge Hsel.
    destruct (predict_reaches argsort py_repr w class_names info predictions Hreach)
      as [_ ->].
    rewrite (diagnose_accept argsort py_repr predictions class_names info _ top idx
               confidence Hmax Hge Hsel).
    now rewrite Hraise.
Qed.

(** C5 on the empty store: the derived and templated defaults. *)
Lemma result_populated_witness :
  ∃ j, Image.enrich Sample.py_repr Sample.class_names (JObj []) 840 1 (9 # 10) = Ok j ∧
       Forall (Image.populated j) Image.required_fields ∧
       jpath ["data"; "recommendations"; "diagnosis"] j
       = Some (JStr "ML model detected Healthy in Tomato with 90.0% confidence.") ∧
       jpath ["data"; "growthStage"; "daysToHarvest"] j = Some (JInt 0) ∧
       jpath ["data"; "tutorial"] j = Some (JArr []).
Proof.
  destruct (result_fully_populated Sample.py_repr Sample.class_names (JObj []) 840 1 (9 # 10))
    as (_ & _ & H & _).
  destruct (H [] eq_refl eq_refl) as (j & Hj & Hall).
  exists j. split; [exact Hj |]. split; [exact Hall |].
  vm_compute in Hj. injection Hj as <-. repeat split; reflexivity.
Defined.

(** Two stores the assembler cannot use as the specification expects: a
    field that is there is handed on as it is, its default playing no part;
    and [null] in place of a record passes for a missing record until the
    first lookup in it. *)
Example result_on_odd_stores :
  (∃ j, Image.enrich Sample.py_repr Sample.class_names Sample.null_crop 840 1 (9 # 10) = Ok j ∧
        jpath ["data"; "crop"] j = Some JNull ∧
        jpath ["data"; "disease"] j = Some (JStr "Unknown")) ∧
  Image.enrich Sample.py_repr Sample.class_names Sample.null_record 840 1 (9 # 10)
  = Raise (AttributeError "'NoneType' object has no attribute 'get'") ∧
  Image.enrich Sample.py_repr Sample.class_names (JArr []) 840 1 (9 # 10)
  = Raise (AttributeError "'list' object has no attribute 'get'").
Proof.
  split; [| split; reflexivity].
  eexists. split; [vm_compute; reflexivity |]. split; reflexivity.
Qed.

(** ** C8: the default health status *)

(** C8: when the record of the resolved label has no [health_status] and
    the resolved condition is the string [condition], the result is emitted
    and its [plantHealth] is ["Healthy"] if and only if [condition] has a
    substring that reads ["healthy"] once lowered, and ["Diseased"]
    otherwise.  On the scenario of the specification, whatever the sort
    does with the two equal scores, the label is ["Tomato___Healthy"], the
    crop ["Tomato"], the condition ["Healthy"] and the health status
    ["Healthy"]. *)
Theorem plant_health_default (argsort : list Q → list nat) (py_repr : json → string)
    (t : Z) :
  (∀ (class_names : gmap Z string) (info : json) (idx : Z) (confidence : Q)
     (record : gmap string json) (condition : string),
     let label := Image.class_name_of class_names idx in
     Image.record_at info label = Some record →
     record !! "health_status" = None →
     Image.disease_name record label = Ok (JStr condition) →
     ∃ j h,
       Image.enrich py_repr class_names info t idx confidence = Ok j ∧
       jpath ["data"; "disease"] j = Some (JStr condition) ∧
       jpath ["data"; "plantHealth"] j = Some (JStr h) ∧
       (h = "Healthy" ∨ h = "Diseased") ∧
       (h = "Healthy" ↔
        ∃ pre mid post, condition = pre +:+ mid +:+ post ∧ PyStr.lower mid = "healthy")) ∧
  (Rank.sorts argsort →
   ∃ j,
     Image.diagnose argsort py_repr [9 # 10; 5 # 100; 3 # 100; 1 # 100; 1 # 100]%Q
       {[ 0%Z := "Tomato___Healthy" ]} (JObj []) t = Ok j ∧
     jpath ["data"; "predictedClass"] j = Some (JStr "Tomato___Healthy") ∧
     jpath ["data"; "crop"] j = Some (JStr "Tomato") ∧
     jpath ["data"; "disease"] j = Some (JStr "Healthy") ∧
     jpath ["data"; "plantHealth"] j = Some (JStr "Healthy")).
Proof.
  split.
  - intros class_names info idx confidence record condition label Hrec Hnone Hd.
    destruct (enrich_ok py_repr class_names info t idx confidence record condition Hrec Hd)
      as (crop & Hc & Hj).
    eexists. exists (Image.default_health (PyStr.lower condition)).
    split; [exact Hj |]. split; [reflexivity |]. split.
    { cbn. now rewrite Hnone. }
    unfold Image.default_health.
    destruct (PyStr.contains "healthy" (PyStr.lower condition)) eqn:E.
    + split; [now left |]. split; [intros _ | reflexivity].
      now apply contains_lower_iff.
    + split; [now right |]. split; [discriminate |].
      intros H. apply contains_lower_iff in H. congruence.
  - intros Hsorts.
    set (scores := [9 # 10; 5 # 100; 3 # 100; 1 # 100; 1 # 100]%Q).
    assert (head (Image.top_k_indices argsort scores) = Some 0) as Hhead.
    { apply (head_unique_max argsort scores Hsorts 0); [simpl; lia |].
      intros i Hi Hne. simpl in Hi.
      destruct i as [|[|[|[|[|i]]]]]; try lia; reflexivity. }
    pose proof (select_head argsort scores {[ 0%Z := "Tomato___Healthy" ]} 0 Hhead eq_refl)
      as Hsel.
    rewrite (diagnose_accept argsort py_repr scores _ (JObj []) t (9 # 10)%Q _ _
               eq_refl ltac:(vm_compute; discriminate) Hsel).
    eexists. split; [vm_compute; reflexivity |]. repeat split; reflexivity.
Qed.

(** ** C9: the reported confidence *)

(** C9: for every score vector the gate accepts, the resolver hands on
    the score that stands in the vector at the resolved index, unrounded;
    the [confidence] of an emitted result - its one numeric confidence
    value - is that score rounded to four decimal places (a multiple of
    1/10000 within half a unit of it), and the percentage written into the
    text of the templated diagnosis is computed from the same unrounded
    score (to one decimal of a percent).  A result is emitted whenever the
    record's [disease], if it has one, is a string.  All of this holds
    whatever the sort does with equal scores. *)
Theorem confidence_raw_then_rounded (argsort : list Q → list nat) (py_repr : json → string)
    (predictions : list Q) (class_names : gmap Z string) (info : json) (t : Z) (top : Q) :
  Rank.sorts argsort →
  Image.np_max predictions = Ok top → (Image.threshold <= top)%Q →
  ∃ idx raw,
    let label := Image.class_name_of class_names (Z.of_nat idx) in
    predictions !! idx = Some raw ∧
    Image.select argsort predictions class_names = Ok (Z.of_nat idx, raw) ∧
    (∀ j, Image.diagnose argsort py_repr predictions class_names info t = Ok j →
       jpath ["data"; "predictedClass"] j = Some (JStr label) ∧
       jpath ["data"; "confidence"] j = Some (JFloat (Image.py_round raw 4)) ∧
       ∃ record, Image.record_at info label = Some record ∧
         (record !! "diagnosis" = None →
          ∃ disease crop,
            jpath ["data"; "recommendations"; "diagnosis"] j
            = Some (JStr (Image.diagnosis_text py_repr disease crop raw)))) ∧
    (∀ record, Image.record_at info label = Some record →
       (∀ v, record !! "disease" = Some v → ∃ s, v = JStr s) →
       ∃ j, Image.diagnose argsort py_repr predictions class_names info t = Ok j) ∧
    (∀ disease crop,
       Image.diagnosis_text py_repr disease crop raw
       = "ML model detected " +:+ Image.py_str py_repr disease +:+ " in "
         +:+ Image.py_str py_repr crop +:+ " with "
         +:+ Image.py_str py_repr (JFloat (Image.py_round (raw * 100) 1))
         +:+ "% confidence.") ∧
    (∃ m : Z, Image.py_round raw 4 = (m # 10000)%Q ∧
       (raw * 10000 - (1 # 2) <= inject_Z m <= raw * 10000 + (1 # 2))%Q).
Proof.
  intros Hsorts Hmax Hge.
  destruct (resolver_score argsort predictions class_names Hsorts top Hmax)
    as (idx & Hlook & Hsel).
  exists idx, (Image.score predictions idx). cbv zeta.
  pose proof (diagnose_accept argsort py_repr predictions class_names info t top _ _
                Hmax Hge Hsel) as Hd.
  split; [exact Hlook |]. split; [exact Hsel |]. split; [| split; [| split]].
  - intros j Hj. rewrite Hd in Hj.
    apply enrich_inv in Hj as (record & crop & d & Hrec & _ & _ & ->).
    split; [reflexivity |]. split; [reflexivity |].
    exists record. split; [exact Hrec |].
    intros Hnone. exists (JStr d), crop. cbn. now rewrite Hnone.
  - intros record Hrec Hstr. rewrite Hd.
    destruct (disease_name_str record (Image.class_name_of class_names (Z.of_nat idx)) Hstr)
      as [d Hdn].
    destruct (enrich_ok py_repr class_names info t (Z.of_nat idx)
                (Image.score predictions idx) record d Hrec Hdn) as (crop & _ & ->).
    eauto.
  - reflexivity.
  - apply py_round_4.
Qed.

Lemma confidence_witness :
  ∃ idx raw,
    [9 # 10; 5 # 100; 3 # 100; 1 # 100; 1 # 100]%Q !! idx = Some raw ∧
    Image.select Image.insertion_argsort [9 # 10; 5 # 100; 3 # 100; 1 # 100; 1 # 100]%Q
      Sample.class_names
    = Ok (Z.of_nat idx, raw).
Proof.
  destruct (confidence_raw_then_rounded Image.insertion_argsort Sample.py_repr
              [9 # 10; 5 # 100; 3 # 100; 1 # 100; 1 # 100]%Q Sample.class_names (JObj []) 840
              (9 # 10)%Q insertion_sorts eq_refl) as (idx & raw & H1 & H2 & _).
  { vm_compute; discriminate. }
  now exists idx, raw.
Defined.

(** A score halfway between two multiples of 1/10000 goes to the even
    one, and the fallback branch reports the maximum itself, whatever the
    sort. *)
Example confidence_rounding_examples (argsort : list Q → list nat) :
  Rank.sorts argsort →
  Image.py_round (1 # 32) 4 = (312 # 10000)%Q ∧
  Image.py_round (12346 # 100000) 4 = (1235 # 10000)%Q ∧
  Image.select argsort [3 # 10; 7 # 10]%Q {[ 0%Z := "PlantVillage" ]}
  = Ok (1%Z, (7 # 10)%Q) ∧
  Image.select argsort [7 # 10; 3 # 10]%Q {[ 0%Z := "PlantVillage" ]}
  = Ok (0%Z, (7 # 10)%Q).
Proof.
  intros Hsorts. split; [reflexivity |]. split; [reflexivity |].
  split; (rewrite (select_distinct argsort _ _ Hsorts);
          [reflexivity | now apply distinctb_sound]).
Qed.

(** ** C10: a record without crop or disease *)

(** C10: when the store has a non-empty record for the resolved label,
    the label is not decomposed (the names do not depend on it); a record
    without [crop] gives the crop ["Unknown"] and a record without
    [disease] the disease ["Unknown"], in the names and in the emitted
    result. *)
Theorem missing_name_fields_read_unknown (py_repr : json → string)
    (class_names : gmap Z string) (info : json)
    (t idx : Z) (confidence : Q) (record : gmap string json) :
  let label := Image.class_name_of class_names idx in
  Image.record_at info label = Some record → record ≠ ∅ →
  (∀ other,
     Image.crop_name record other = Image.crop_name record label ∧
     Image.disease_name record other = Image.disease_name record label) ∧
  (record !! "crop" = None →
     Image.crop_name record label = Ok (JStr "Unknown") ∧
     (∀ j, Image.enrich py_repr class_names info t idx confidence = Ok j →
        jpath ["data"; "crop"] j = Some (JStr "Unknown")) ∧
     ((∀ v, record !! "disease" = Some v → ∃ s, v = JStr s) →
      ∃ j, Image.enrich py_repr class_names info t idx confidence = Ok j)) ∧
  (record !! "disease" = None →
     Image.disease_name record label = Ok (JStr "Unknown") ∧
     ∃ j, Image.enrich py_repr class_names info t idx confidence = Ok j ∧
          jpath ["data"; "disease"] j = Some (JStr "Unknown")).
Proof.
  intros label Hrec Hne.
  pose proof (proj2 (truthy_true record) Hne) as Htruthy.
  split; [intros other; now apply names_ignore_label |]. split.
  - intros Hnone.
    assert (Image.crop_name record label = Ok (JStr "Unknown")) as Hc.
    { unfold Image.crop_name. now rewrite Htruthy, Hnone. }
    split; [exact Hc |]. split.
    + intros j Hj. apply enrich_inv in Hj as (record' & crop & d & Hrec' & Hc' & _ & ->).
      fold label in Hrec', Hc'. rewrite Hrec in Hrec'. injection Hrec' as <-.
      rewrite Hc in Hc'. now injection Hc' as <-.
    + intros Hstr. destruct (disease_name_str record label Hstr) as [d Hd].
      destruct (enrich_ok py_repr class_names info t idx confidence record d Hrec Hd)
        as (crop & _ & ->).
      eauto.
  - intros Hnone.
    assert (Image.disease_name record label = Ok (JStr "Unknown")) as Hd.
    { unfold Image.disease_name. now rewrite Htruthy, Hnone. }
    split; [exact Hd |].
    destruct (enrich_ok py_repr class_names info t idx confidence record "Unknown" Hrec Hd)
      as (crop & _ & ->).
    eexists. split; reflexivity.
Qed.

Lemma missing_name_fields_witness :
  Image.crop_name {[ "irrigation_advice" := JStr "Water at the base of the plant." ]}
    "Tomato___Healthy" = Ok (JStr "Unknown") ∧
  ∃ j, Image.enrich Sample.py_repr Sample.class_names Sample.advice_only 840 1 (9 # 10) = Ok j ∧
       jpath ["data"; "disease"] j = Some (JStr "Unknown").
Proof.
  destruct (missing_name_fields_read_unknown Sample.py_repr Sample.class_names
              Sample.advice_only 840 1 (9 # 10)
              {[ "irrigation_advice" := JStr "Water at the base of the plant." ]}
              eq_refl (map_non_empty_singleton _ _)) as (_ & Hc & Hd).
  split; [exact (proj1 (Hc eq_refl)) | exact (proj2 (Hd eq_refl))].
Defined.

(** ** C7: the tabular mapper *)

(** C7: the classes 0, 1 and 2 map to the three pairs of the built-in
    table; every other class id maps to the status ["Class <id>"] with the
    generic recommendation; and for every class id the model returns, the
    soil pipeline emits its success object: the mapping raises nothing. *)
Theorem tabular_mapper :
  (Soil.status 0 = "Balanced Soil" ∧
   Soil.recommendation 0
   = "Soil is well-balanced. Maintain regular composting and pH monitoring.") ∧
  (Soil.status 1 = "Nutrient Deficient — Low Nitrogen / Organic Matter" ∧
   Soil.recommendation 1
   = "Apply organic compost or urea to restore nitrogen levels. Consider green manure.") ∧
  (Soil.status 2 = "Nutrient Deficient — Low Phosphorus / Potassium" ∧
   Soil.recommendation 2
   = "Apply DAP (Di-ammonium Phosphate) or MOP (Muriate of Potash) as appropriate.") ∧
  (∀ id : Z, id ≠ 0%Z → id ≠ 1%Z → id ≠ 2%Z →
     Soil.status id = "Class " +:+ pretty id ∧
     Soil.recommendation id = "Consult an agronomist.") ∧
  (Soil.status 99 = "Class 99" ∧ Soil.status (-3) = "Class -3") ∧
  (∀ (w : Soil.env) (features_str : string) (values : list Q) (id : Z),
     Soil.model_exists w = true → Soil.imports w = Ok () → Soil.load w = Ok () →
     Soil.floats (Soil.py_float w) (PyStr.split "," features_str) = Ok values →
     Soil.classify w values = Ok id →
     Soil.predict_soil w features_str = Emitted (Soil.success id (Soil.elapsed w)) ∧
     jpath ["data"; "status"] (Soil.success id (Soil.elapsed w))
     = Some (JStr (Soil.status id)) ∧
     jpath ["data"; "recommendation"] (Soil.success id (Soil.elapsed w))
     = Some (JStr (Soil.recommendation id)) ∧
     jpath ["data"; "predictionClass"] (Soil.success id (Soil.elapsed w)) = Some (JInt id)).
Proof.
  split; [split; reflexivity |]. split; [split; reflexivity |].
  split; [split; reflexivity |]. split; [| split; [split; reflexivity |]].
  - intros id H0 H1 H2. unfold Soil.status, Soil.recommendation, Soil.status_map, Soil.rec_map.
    rewrite !lookup_insert_ne by congruence.
    rewrite !lookup_singleton_ne by congruence. split; reflexivity.
  - intros w features_str values id He Hi Hl Hf Hc.
    split; [| repeat split; reflexivity].
    unfold Soil.predict_soil, Soil.body. rewrite He, Hi, Hl, Hf. simpl. now rewrite Hc.
Qed.

(** ** C6: failures at the pipeline boundary *)

(** C6, as stated, fails: an exception raised by the imports that is no
    [ImportError] passes the handler of lines 124-128 and is not inside
    the [try] of line 130; no object is emitted. *)
Lemma non_import_error_escapes :
  ¬ (∀ w : Image.env,
       ∃ j, Image.predict Image.insertion_argsort Sample.py_repr w = Emitted j).
Proof.
  intros H. destruct (H Sample.import_crash) as [j Hj]. vm_compute in Hj. discriminate.
Qed.

(** C6 (amended): every [Exception] that a stage of the guarded body of
    either pipeline raises (loading the model or the two files, parsing
    the feature string, preprocessing, inference, the decision logic) is
    emitted as [{success: false, status: "model_error", error}] with
    [error] equal to [str(e)]; whatever the decision logic raises is such
    an [Exception].  A missing model file, an [ImportError] of the imports
    and an [Exception] of the download are emitted in the same shape, the
    path or [str(e)] set in a fixed message.  Nothing else is promised: an
    exception can only go uncaught when it is raised by the imports and is
    no [ImportError], or is outside the [Exception] hierarchy. *)
Theorem failures_become_model_error (argsort : list Q → list nat)
    (py_repr : json → string) :
  (∀ error,
     jget "success" (model_error error) = Some (JBool false) ∧
     jget "status" (model_error error) = Some (JStr "model_error") ∧
     jget "error" (model_error error) = Some (JStr error)) ∧
  (∀ w : Image.env,
     (Image.model_exists w = false →
      Image.predict argsort py_repr w
      = Emitted (model_error ("Model not loaded — file not found: " +:+ Image.model_path w))) ∧
     (Image.model_exists w = true → ∀ e,
        (Image.imports w = Raise e → isinstance_ImportError e = true →
         Image.predict argsort py_repr w
         = Emitted (model_error ("TensorFlow missing: " +:+ exn_msg e
                                 +:+ ". Run: pip install -r requirements.txt"))) ∧
        (Image.imports w = Ok () → Image.raises argsort py_repr w e →
         isinstance_Exception e = true →
         Image.predict argsort py_repr w = Emitted (model_error (exn_msg e))) ∧
        (Image.imports w = Ok () → Image.reaches_download w →
         Image.download w = Raise e → isinstance_Exception e = true →
         Image.predict argsort py_repr w
         = Emitted (model_error ("Failed to download image: " +:+ exn_msg e)))) ∧
     (∀ e, Image.predict argsort py_repr w = Uncaught e →
        (Image.imports w = Raise e ∧ isinstance_ImportError e = false) ∨
        isinstance_Exception e = false)) ∧
  (∀ predictions class_names info t e,
     Image.diagnose argsort py_repr predictions class_names info t = Raise e →
     isinstance_Exception e = true) ∧
  (∀ (w : Soil.env) (features_str : string),
     (Soil.model_exists w = false →
      Soil.predict_soil w features_str
      = Emitted (model_error ("Soil model not found: " +:+ Soil.model_path w))) ∧
     (Soil.model_exists w = true → ∀ e,
        (Soil.imports w = Raise e → isinstance_ImportError e = true →
         Soil.predict_soil w features_str
         = Emitted (model_error ("Missing Python dependency: " +:+ exn_msg e))) ∧
        (Soil.imports w = Ok () → Soil.raises w features_str e →
         isinstance_Exception e = true →
         Soil.predict_soil w features_str = Emitted (model_error (exn_msg e)))) ∧
     (∀ e, Soil.predict_soil w features_str = Uncaught e →
        (Soil.imports w = Raise e ∧ isinstance_ImportError e = false) ∨
        isinstance_Exception e = false)).
Proof.
  split; [intros error; repeat split; reflexivity |].
  split; [| split; [apply diagnose_raise |]].
  - intros w. split; [| split].
    + intros He. unfold Image.predict. now rewrite He.
    + intros He e. unfold Image.predict. rewrite He. simpl. split; [| split].
      * intros Hi Hc. now rewrite Hi, Hc.
      * intros Hi Hr Hc. now rewrite Hi, (image_raises_body argsort py_repr w e Hr), Hc.
      * intros Hi Hr Hd Hc. now rewrite Hi, (image_download_body argsort py_repr w e Hr Hd Hc).
    + intros e. unfold Image.predict.
      destruct (Image.model_exists w); simpl; [| discriminate].
      destruct (Image.imports w) as [[]|e'] eqn:Ei.
      * destruct (Image.body argsort py_repr w) as [j|e'']; [discriminate |].
        destruct (isinstance_Exception e'') eqn:Ec; [discriminate |].
        intros [= <-]. now right.
      * destruct (isinstance_ImportError e') eqn:Ec; [discriminate |].
        intros [= <-]. now left.
  - intros w features_str. split; [| split].
    + intros He. unfold Soil.predict_soil. now rewrite He.
    + intros He e. unfold Soil.predict_soil. rewrite He. simpl. split.
      * intros Hi Hc. now rewrite Hi, Hc.
      * intros Hi Hr Hc. now rewrite Hi, (soil_raises_body w features_str e Hr), Hc.
    + intros e. unfold Soil.predict_soil.
      destruct (Soil.model_exists w); simpl; [| discriminate].
      destruct (Soil.imports w) as [[]|e'] eqn:Ei.
      * destruct (Soil.body w features_str) as [j|e'']; [discriminate |].
        destruct (isinstance_Exception e'') eqn:Ec; [discriminate |].
        intros [= <-]. now right.
      * destruct (isinstance_ImportError e') eqn:Ec; [discriminate |].
        intros [= <-]. now left.
Qed.

(** C6 on four inputs, whatever the sort: a feature string with a piece
    [float] cannot read, an empty score vector, a label record whose
    [disease] is a number, and a store that holds [null] for the label. *)
Example failures_verbatim (argsort : list Q → list nat) :
  Rank.sorts argsort →
  Soil.predict_soil Sample.soil_world "90,abc,6.5"
  = Emitted (model_error "could not convert string to float: 'abc'") ∧
  Image.predict argsort Sample.py_repr (Sample.world [])
  = Emitted (model_error
      "zero-size array to reduction operation maximum which has no identity") ∧
  Image.diagnose argsort Sample.py_repr [9 # 10; 1 # 10]%Q Sample.class_names
    (JObj [("Tomato___Healthy", JObj [("disease", JInt 7)])]) 840
  = Raise (AttributeError "'int' object has no attribute 'lower'") ∧
  Image.predict argsort Sample.py_repr
    (Fixture.world (Some [("Tomato___Healthy", 0%Z)]) Sample.null_record [9 # 10; 1 # 10]%Q)
  = Emitted (model_error "'NoneType' object has no attribute 'get'").
Proof.
  intros Hsorts. split; [reflexivity |]. split; [reflexivity |].
  assert (Rank.distinct [9 # 10; 1 # 10]%Q) as Hd by now apply distinctb_sound.
  split.
  - rewrite (diagnose_distinct argsort _ _ _ _ _ Hsorts Hd). reflexivity.
  - unfold Image.predict, Image.body. cbn [Fixture.world Image.model_exists Image.imports
      Image.load_model Image.download Image.preprocess Image.inference Image.total_time negb].
    cbn [mbind res_bind].
    change (Image.load_class_names _) with (Ok (Image.invert [("Tomato___Healthy", 0%Z)])).
    change (Image.load_disease_info _) with (Ok Sample.null_record).
    cbn [mbind res_bind].
    rewrite (diagnose_distinct argsort _ _ _ _ _ Hsorts Hd). reflexivity.
Qed.

(** * Further properties of [predict.py] *)

(** ** The resolver, once more *)

Section ResolverFacts.

Import Image.

Variable argsort : list Q → list nat.
Variables (predictions : list Q) (class_names : gmap Z string).

Lemma all_skipped_fallback (top : Q) :
  np_max predictions = Ok top →
  Forall (Rank.skipped class_names) (top_k_indices argsort predictions) →
  ∃ idx, np_argmax predictions = Ok idx ∧ idx < length predictions ∧
    score predictions idx = top ∧
    select argsort predictions class_names = Ok (Z.of_nat idx, top).
Proof.
  intros Hmax Hall.
  destruct (select_cases argsort predictions class_names top Hmax) as (idx & Hsel & Hcase).
  destruct Hcase as [(pre & post & Hk & _ & Hu) | (_ & Harg & Hlt & Hs)].
  - exfalso. rewrite Hk in Hall. apply Forall_app in Hall as [_ Hall].
    apply Forall_cons in Hall as [Hskip _].
    apply not_usable_iff in Hskip. congruence.
  - exists idx. rewrite Hs in Hsel. auto.
Qed.

Hypothesis Hsorts : Rank.sorts argsort.

(** What [select] returns is an index of the vector with the entry that
    stands there; on the empty vector it raises. *)
Lemma select_ok_inv (idx : Z) (conf : Q) :
  select argsort predictions class_names = Ok (idx, conf) →
  ∃ i top, idx = Z.of_nat i ∧ predictions !! i = Some conf ∧ conf = score predictions i ∧
    np_max predictions = Ok top.
Proof.
  intros H. destruct (np_max predictions) as [top|e] eqn:Hmax.
  - destruct (resolver_score argsort predictions class_names Hsorts top Hmax)
      as (i & Hi & Hsel).
    rewrite Hsel in H. injection H as <- <-. now exists i, top.
  - destruct predictions as [|x v]; [| discriminate Hmax].
    pose proof (top_k_length argsort Hsorts []) as Hlen. unfold select in H.
    destruct (top_k_indices argsort []); [discriminate H | discriminate Hlen].
Qed.

End ResolverFacts.

Section UnknownNames.

Import Image.

Lemma fallback_names_unknown (i : Z) :
  class_name_of {[ 0%Z := "Unknown" ]} i = "Unknown".
Proof.
  unfold class_name_of. destruct (decide (i = 0%Z)) as [-> | Hne].
  - now rewrite lookup_singleton_eq.
  - now rewrite lookup_singleton_ne.
Qed.

End UnknownNames.

(** X1: without a [class_indices.json] every image the gate accepts
    resolves to the global argmax under the label ["Unknown"]; when the
    metadata has no record for that label, the emitted crop and disease are
    ["Unknown"], the health status is ["Diseased"] and the confidence is
    the rounded maximum. *)
Theorem degraded_mode_resolves_unknown (argsort : list Q → list nat)
    (py_repr : json → string) (w : Image.env)
    (class_names : gmap Z string) (info : json) (predictions : list Q) (top : Q) :
  Image.class_indices w = None →
  Image.reaches_inference w class_names info predictions →
  Image.np_max predictions = Ok top → (Image.threshold <= top)%Q →
  Image.record_at info "Unknown" = Some ∅ →
  ∃ idx j,
    Image.np_argmax predictions = Ok idx ∧
    Image.select argsort predictions class_names = Ok (Z.of_nat idx, top) ∧
    Image.predict argsort py_repr w = Emitted j ∧
    jpath ["data"; "predictedClass"] j = Some (JStr "Unknown") ∧
    jpath ["data"; "crop"] j = Some (JStr "Unknown") ∧
    jpath ["data"; "disease"] j = Some (JStr "Unknown") ∧
    jpath ["data"; "plantHealth"] j = Some (JStr "Diseased") ∧
    jpath ["data"; "confidence"] j = Some (JFloat (Image.py_round top 4)).
Proof.
  intros Hnone Hreach Hmax Hge Hinfo.
  assert (class_names = {[ 0%Z := "Unknown" ]}) as ->.
  { destruct Hreach as (_ & _ & _ & Hc & _). unfold Image.load_class_names in Hc.
    rewrite Hnone in Hc. now injection Hc as <-. }
  destruct (all_skipped_fallback argsort predictions {[ 0%Z := "Unknown" ]} top Hmax)
    as (idx & Harg & _ & _ & Hsel).
  { apply Forall_forall. intros i _. right. apply fallback_names_unknown. }
  destruct (predict_reaches argsort py_repr w _ info predictions Hreach) as [_ Hpred].
  rewrite (diagnose_accept argsort py_repr predictions _ info (Image.total_time w) top _ _
             Hmax Hge Hsel) in Hpred.
  assert (Image.enrich py_repr {[ 0%Z := "Unknown" ]} info (Image.total_time w)
            (Z.of_nat idx) top
          = Ok (Image.result_object py_repr "Unknown" (JStr "Unknown") (JStr "Unknown") top
                  "Diseased" ∅ (Image.total_time w))) as He.
  { rewrite (enrich_record py_repr _ info _ _ _ ∅);
      rewrite fallback_names_unknown; [reflexivity | exact Hinfo]. }
  rewrite He in Hpred. exists idx. eexists.
  split; [exact Harg |]. split; [exact Hsel |]. split; [exact Hpred |].
  repeat split; reflexivity.
Qed.

Lemma degraded_mode_witness :
  ∃ j, Image.predict Image.insertion_argsort Sample.py_repr
         (Fixture.world None (JObj []) [2 # 10; 7 # 10; 1 # 10]%Q)
       = Emitted j ∧
       jpath ["data"; "predictedClass"] j = Some (JStr "Unknown") ∧
       jpath ["data"; "confidence"] j = Some (JFloat (7000 # 10000)).
Proof.
  destruct (degraded_mode_resolves_unknown Image.insertion_argsort Sample.py_repr
              (Fixture.world None (JObj []) [2 # 10; 7 # 10; 1 # 10]%Q)
              {[ 0%Z := "Unknown" ]} (JObj [])
              [2 # 10; 7 # 10; 1 # 10]%Q (7 # 10)%Q eq_refl)
    as (idx & j & _ & _ & Hp & Hc & _ & _ & _ & Hconf).
  - repeat split; reflexivity.
  - reflexivity.
  - vm_compute; discriminate.
  - reflexivity.
  - exists j. split; [exact Hp |]. split; [exact Hc | exact Hconf].
Defined.

(** X2: the confidence the resolver returns is an entry of the vector and
    never exceeds the maximum; it equals the maximum when the first
    candidate is usable.  The threshold of the gate is no lower bound for
    it: when the higher of two scores belongs to an artifact label and the
    lower to a usable one, the lower score is returned. *)
Theorem confidence_at_most_max (argsort : list Q → list nat) (predictions : list Q)
    (class_names : gmap Z string) (idx : Z) (conf : Q) :
  Rank.sorts argsort →
  Image.select argsort predictions class_names = Ok (idx, conf) →
  conf ∈ predictions ∧
  (∀ top, Image.np_max predictions = Ok top → (conf <= top)%Q) ∧
  (∀ h top, head (Image.top_k_indices argsort predictions) = Some h →
     Image.usable (Image.class_name_of class_names (Z.of_nat h)) = true →
     Image.np_max predictions = Ok top →
     idx = Z.of_nat h ∧ (conf == top)%Q) ∧
  (∀ (a b : Q) (names : gmap Z string), (b < a)%Q →
     Rank.skipped names 0 → Image.usable (Image.class_name_of names 1%Z) = true →
     Image.select argsort [a; b] names = Ok (1%Z, b)).
Proof.
  intros Hsorts Hsel.
  destruct (select_ok_inv argsort predictions class_names Hsorts idx conf Hsel)
    as (i & top & -> & Hi & Hconf & Hmax).
  assert (conf ∈ predictions) as Hin by (eapply list_elem_of_lookup_2; exact Hi).
  split; [exact Hin |]. split; [| split].
  - intros top' Hmax'. now apply (np_max_spec predictions top' Hmax').
  - intros h top' Hh Hu Hmax'.
    rewrite (select_head argsort predictions class_names h Hh Hu) in Hsel.
    injection Hsel as Hidx Hc.
    split; [now rewrite Hidx |].
    destruct (np_max_spec predictions top' Hmax') as [Htop Hub].
    apply Qle_antisym; [now apply Hub |].
    rewrite <- Hc. now apply (top_k_head_max argsort Hsorts predictions).
  - intros a b names Hlt Hskip Hu.
    assert (Rank.distinct [a; b]) as Hd.
    { intros p q Hp Hq E. simpl in Hp, Hq.
      destruct p as [|[|p]], q as [|[|q]]; try lia; try reflexivity; exfalso;
        unfold Image.score in E; simpl in E; rewrite E in Hlt; exact (Qlt_irrefl _ Hlt). }
    assert (Image.top_k_indices argsort [a; b] = [0; 1]) as Hk.
    { rewrite (top_k_distinct argsort Hsorts [a; b] Hd). unfold Image.top_k_indices.
      change (Image.insertion_argsort [a; b])
        with (if Image.Qltb b a then [1; 0] else [0; 1]).
      apply Qltb_lt in Hlt. now rewrite Hlt. }
    apply not_usable_iff in Hskip.
    unfold Image.select. rewrite Hk. cbn [Image.walk].
    rewrite Hskip. change (Z.of_nat 1) with 1%Z. rewrite Hu. reflexivity.
Qed.

Lemma confidence_at_most_max_witness :
  (1 # 10 ∈ [9 # 10; 1 # 10])%Q ∧
  Image.select Image.insertion_argsort [9 # 10; 1 # 10]%Q Sample.class_names
  = Ok (1%Z, (1 # 10)%Q).
Proof.
  split.
  - exact (proj1 (confidence_at_most_max Image.insertion_argsort [9 # 10; 1 # 10]%Q
                    Sample.class_names 1 (1 # 10)%Q insertion_sorts eq_refl)).
  - reflexivity.
Defined.

(** ** Rounding, once more *)

Section RoundRange.

Import Image.

Lemma round_half_even_range (a b : Z) (q : Q) :
  (inject_Z a <= q <= inject_Z b)%Q → (a <= round_half_even q <= b)%Z.
Proof.
  intros [Ha Hb]. destruct (round_half_even_close q) as [Hlo Hhi].
  split.
  - assert (inject_Z (a + -1) < inject_Z (round_half_even q))%Q as H.
    { rewrite inject_Z_plus. change (inject_Z (-1)) with (-1 # 1)%Q. lra. }
    rewrite <- Zlt_Qlt in H. lia.
  - assert (inject_Z (round_half_even q) < inject_Z (b + 1))%Q as H.
    { rewrite inject_Z_plus. change (inject_Z 1) with 1%Q. lra. }
    rewrite <- Zlt_Qlt in H. lia.
Qed.

Lemma py_round_4_unit (x : Q) : (0 <= x <= 1)%Q → (0 <= py_round x 4 <= 1)%Q.
Proof.
  intros [H0 H1].
  destruct (round_half_even_range 0 10000 (x * inject_Z 10000)) as [Hlo Hhi].
  { change (inject_Z 10000) with 10000%Q. change (inject_Z 0) with 0%Q. split; lra. }
  change (py_round x 4) with (round_half_even (x * inject_Z 10000) # 10000)%Q.
  unfold Qle. simpl. split; lia.
Qed.

Lemma py_round_percent (x : Q) : (0 <= x <= 1)%Q → (0 <= py_round (x * 100) 1 <= 100)%Q.
Proof.
  intros [H0 H1].
  destruct (round_half_even_range 0 1000 (x * 100 * inject_Z 10)) as [Hlo Hhi].
  { change (inject_Z 10) with 10%Q. change (inject_Z 1000) with 1000%Q.
    change (inject_Z 0) with 0%Q. split; lra. }
  change (py_round (x * 100) 1) with (round_half_even (x * 100 * inject_Z 10) # 10)%Q.
  unfold Qle. simpl. split; lia.
Qed.

Lemma py_round_4_error (x : Q) :
  (- (1 # 20000) <= py_round x 4 - x <= 1 # 20000)%Q.
Proof.
  destruct (py_round_4 x) as (m & -> & Hlo & Hhi).
  rewrite (Qmake_Qdiv m 10000). unfold Qdiv.
  change (/ inject_Z (Z.pos 10000))%Q with (1 # 10000)%Q.
  split; lra.
Qed.

End RoundRange.

(** X3: when every score lies in [0, 1], the confidence of the result
    lies in [0, 1] and within 0.00005 of the score the resolver returned,
    and the percentage of the templated diagnosis lies in [0, 100]. *)
Theorem reported_confidence_in_unit_interval (argsort : list Q → list nat)
    (predictions : list Q) (class_names : gmap Z string) (idx : Z) (conf : Q) :
  Rank.sorts argsort →
  (∀ x, x ∈ predictions → (0 <= x <= 1)%Q) →
  Image.select argsort predictions class_names = Ok (idx, conf) →
  (0 <= Image.py_round conf 4 <= 1)%Q ∧
  (- (1 # 20000) <= Image.py_round conf 4 - conf <= 1 # 20000)%Q ∧
  (0 <= Image.py_round (conf * 100) 1 <= 100)%Q.
Proof.
  intros Hsorts Hunit Hsel.
  destruct (select_ok_inv argsort predictions class_names Hsorts idx conf Hsel)
    as (i & top & _ & Hi & _).
  assert (0 <= conf <= 1)%Q as Hc by (apply Hunit; eapply list_elem_of_lookup_2; exact Hi).
  split; [now apply py_round_4_unit |]. split; [apply py_round_4_error |].
  now apply py_round_percent.
Qed.

Lemma reported_confidence_witness :
  (0 <= Image.py_round (99999 # 100000) 4 <= 1)%Q.
Proof.
  refine (proj1 (reported_confidence_in_unit_interval Image.insertion_argsort
                   [1 # 100000; 99999 # 100000]%Q
                   Sample.class_names 1 (99999 # 100000)%Q insertion_sorts _ eq_refl)).
  intros x Hx. repeat (apply elem_of_cons in Hx as [-> | Hx]; [split; vm_compute; discriminate |]).
  now apply elem_of_nil in Hx.
Defined.

(** ** The class names of step 4 *)

Section InvertFacts.

Import Image.

Lemma invert_snoc (l : list (string * Z)) (k : string) (v : Z) :
  invert (l ++ [(k, v)]) = <[v := k]> (invert l).
Proof. unfold invert. now rewrite foldl_snoc. Qed.

Lemma invert_lookup_elem (l : list (string * Z)) (v : Z) (k : string) :
  invert l !! v = Some k → (k, v) ∈ l.
Proof.
  induction l as [|[k' v'] l IH] using rev_ind; [discriminate |].
  rewrite invert_snoc, elem_of_app, list_elem_of_singleton.
  destruct (decide (v' = v)) as [-> | Hne].
  - rewrite lookup_insert_eq. intros [= ->]. now right.
  - rewrite lookup_insert_ne by exact Hne. intros H. left. now apply IH.
Qed.

Lemma invert_lookup_absent (l : list (string * Z)) (v : Z) :
  v ∉ l.*2 → invert l !! v = None.
Proof.
  intros Hv. destruct (invert l !! v) as [k|] eqn:E; [| reflexivity].
  exfalso. apply Hv. apply invert_lookup_elem in E.
  apply list_elem_of_fmap. now exists (k, v).
Qed.

Lemma invert_lookup_NoDup (l : list (string * Z)) (k : string) (v : Z) :
  NoDup l.*2 → (k, v) ∈ l → invert l !! v = Some k.
Proof.
  induction l as [|[k' v'] l IH] using rev_ind; intros Hnd Hin.
  - now apply elem_of_nil in Hin.
  - rewrite fmap_app in Hnd. apply NoDup_app in Hnd as (Hnd & Hfresh & _).
    rewrite invert_snoc. apply elem_of_app in Hin as [Hin | Hin].
    + assert (v ≠ v') as Hne.
      { intros ->. apply (Hfresh v'); [| now left].
        apply list_elem_of_fmap. now exists (k, v'). }
      rewrite lookup_insert_ne by congruence. now apply IH.
    + apply list_elem_of_singleton in Hin. injection Hin as -> ->.
      apply lookup_insert_eq.
Qed.

End InvertFacts.

(** X4: the class names built from the index file hold nothing the file
    does not: an index the file does not mention reads as ["Unknown"]; when
    the file gives every label an index of its own (as the file [train.py]
    writes does), each index reads back as its label; and of two labels
    with the same index the later one stays. *)
Theorem class_names_read_back (class_indices : list (string * Z)) :
  (∀ v k, Image.invert class_indices !! v = Some k → (k, v) ∈ class_indices) ∧
  (∀ v, v ∉ class_indices.*2 →
     Image.class_name_of (Image.invert class_indices) v = "Unknown") ∧
  (NoDup class_indices.*2 →
   ∀ k v, (k, v) ∈ class_indices →
     Image.class_name_of (Image.invert class_indices) v = k) ∧
  (∀ k v, Image.class_name_of (Image.invert (class_indices ++ [(k, v)])) v = k).
Proof.
  split; [apply invert_lookup_elem |]. split; [| split].
  - intros v Hv. unfold Image.class_name_of. now rewrite invert_lookup_absent.
  - intros Hnd k v Hin. unfold Image.class_name_of.
    now rewrite (invert_lookup_NoDup _ k v Hnd Hin).
  - intros k v. unfold Image.class_name_of. now rewrite invert_snoc, lookup_insert_eq.
Qed.

(** ** Inputs the decision logic cannot read *)

(** X5: when the record of the resolved label has a [disease] that is no
    string, [predict] emits a [model_error] that names the type of the
    value - also when the record has a [health_status], for which the
    lowered name would not be needed. *)
Theorem non_string_disease_fails (argsort : list Q → list nat) (py_repr : json → string)
    (w : Image.env) (class_names : gmap Z string) (info : json)
    (predictions : list Q) (top : Q) (idx : Z) (conf : Q)
    (record : gmap string json) (v : json) :
  Image.reaches_inference w class_names info predictions →
  Image.np_max predictions = Ok top → (Image.threshold <= top)%Q →
  Image.select argsort predictions class_names = Ok (idx, conf) →
  Image.record_at info (Image.class_name_of class_names idx) = Some record →
  record !! "disease" = Some v → (∀ s, v ≠ JStr s) →
  Image.predict argsort py_repr w
  = Emitted (model_error ("'" +:+ Image.type_name v +:+ "' object has no attribute 'lower'")).
Proof.
  intros Hreach Hmax Hge Hsel Hinfo Hdis Hv.
  destruct (predict_reaches argsort py_repr w class_names info predictions Hreach) as [_ ->].
  rewrite (diagnose_accept argsort py_repr predictions class_names info _ top idx conf
             Hmax Hge Hsel).
  assert (record ≠ ∅) as Hne by (intros ->; now rewrite lookup_empty in Hdis).
  apply truthy_true in Hne.
  rewrite (enrich_record py_repr class_names info _ idx conf record Hinfo).
  unfold Image.assemble, Image.crop_name, Image.disease_name, Image.result.
  rewrite Hne, Hdis. simpl.
  destruct v; try reflexivity. now destruct (Hv s).
Qed.

Lemma non_string_disease_witness :
  Image.predict Image.insertion_argsort Sample.py_repr
    (Fixture.world (Some [("Tomato___Healthy", 0%Z)]) Fixture.numbered_disease
       [9 # 10; 1 # 10]%Q)
  = Emitted (model_error "'int' object has no attribute 'lower'").
Proof.
  refine (non_string_disease_fails Image.insertion_argsort Sample.py_repr _
            (Image.invert [("Tomato___Healthy", 0%Z)]) Fixture.numbered_disease
            [9 # 10; 1 # 10]%Q (9 # 10)%Q 0 (9 # 10)%Q
            {[ "disease" := JInt 7; "health_status" := JStr "Healthy" ]} (JInt 7)
            _ eq_refl _ eq_refl eq_refl eq_refl _).
  - repeat split; reflexivity.
  - vm_compute; discriminate.
  - discriminate.
Defined.

(** X6: an empty score vector is no rejected image: [np.max] raises on
    it and [predict] emits the [model_error] with numpy's message. *)
Theorem empty_scores_fail (argsort : list Q → list nat) (py_repr : json → string)
    (w : Image.env) (class_names : gmap Z string) (info : json) :
  Image.reaches_inference w class_names info [] →
  Image.predict argsort py_repr w
  = Emitted (model_error
      "zero-size array to reduction operation maximum which has no identity") ∧
  Image.predict argsort py_repr w ≠ Emitted Image.invalid_image.
Proof.
  intros Hreach.
  destruct (predict_reaches argsort py_repr w class_names info [] Hreach) as [_ ->].
  split; [reflexivity | discriminate].
Qed.

Lemma empty_scores_witness :
  Image.predict Image.insertion_argsort Sample.py_repr (Sample.world [])
  ≠ Emitted Image.invalid_image.
Proof.
  refine (proj2 (empty_scores_fail Image.insertion_argsort Sample.py_repr (Sample.world [])
                   Sample.class_names (JObj []) _)).
  repeat split; reflexivity.
Defined.

(** ** Labels, once more *)

Section SeparatorFacts.

Import PyStr.

Lemma contains_leftmost (s : string) :
  contains "___" s = true →
  ∃ A B, s = A +:+ "___" +:+ B ∧ contains "___" (A +:+ "__") = false.
Proof.
  induction s as [|c s IH]; intros H; [discriminate |].
  cbn [contains] in H. destruct (startswith "___" (String c s)) eqn:E.
  - destruct (startswith_inv _ _ E) as [B HB]. now exists "", B.
  - destruct (IH H) as (A & B & -> & HA).
    exists (String c A), B. split; [reflexivity |].
    change (String c A +:+ "__") with (String c (A +:+ "__")). cbn [contains].
    rewrite HA, orb_false_r.
    change (String c (A +:+ "__")) with (String c A +:+ "__").
    rewrite <- (startswith_sep_inside c A B). exact E.
Qed.

Lemma replace_no_underscore (s : string) : contains "_" (replace "_" " " s) = false.
Proof.
  induction s as [|c s IH]; [reflexivity |].
  cbn [replace contains startswith]. rewrite IH, orb_false_r.
  destruct (Ascii.eqb_spec c "_") as [-> | Hne]; [reflexivity |].
  destruct (Ascii.eqb_spec "_" c) as [<- | _]; [contradiction | reflexivity].
Qed.

End SeparatorFacts.

(** X7: with no metadata record, every label that contains the separator
    is cut at its leftmost occurrence: the label is [A ___ B] with no
    separator starting inside [A], the crop is [A] with its underscores
    turned into spaces, and neither the crop nor the condition holds an
    underscore any more. *)
Theorem label_cut_at_leftmost_separator (disease_data : gmap string json) (label : string) :
  Image.truthy disease_data = false →
  PyStr.contains "___" label = true →
  ∃ A B crop condition,
    label = A +:+ "___" +:+ B ∧
    PyStr.contains "___" (A +:+ "__") = false ∧
    Image.crop_name disease_data label = Ok (JStr crop) ∧
    crop = PyStr.replace "_" " " A ∧
    Image.disease_name disease_data label = Ok (JStr condition) ∧
    PyStr.contains "_" crop = false ∧
    PyStr.contains "_" condition = false.
Proof.
  intros Hd Hsep. destruct (contains_leftmost label Hsep) as (A & B & -> & HA).
  destruct (label_part_condition A B HA) as (B1 & rest & _ & HB).
  exists A, B, (PyStr.replace "_" " " A), (PyStr.replace "_" " " B1).
  unfold Image.crop_name, Image.disease_name.
  rewrite Hd, (label_part_crop A B HA), HB.
  repeat split; try reflexivity; try exact HA; apply replace_no_underscore.
Qed.

Lemma label_cut_witness :
  ∃ A B crop condition,
    "Corn_(maize)___Common_rust_" = A +:+ "___" +:+ B ∧
    PyStr.contains "___" (A +:+ "__") = false ∧
    Image.crop_name ∅ "Corn_(maize)___Common_rust_" = Ok (JStr crop) ∧
    crop = PyStr.replace "_" " " A ∧
    Image.disease_name ∅ "Corn_(maize)___Common_rust_" = Ok (JStr condition) ∧
    PyStr.contains "_" crop = false ∧
    PyStr.contains "_" condition = false.
Proof.
  exact (label_cut_at_leftmost_separator ∅ "Corn_(maize)___Common_rust_"
           truthy_empty eq_refl).
Defined.

(** ** The fallback of the resolver *)

(** X8: when every candidate is passed over, the resolver answers with
    the argmax and the maximum; if the argmax is one of the candidates -
    as it always is with at most five classes - that answer carries an
    artifact label itself. *)
Theorem fallback_answer (argsort : list Q → list nat) (predictions : list Q)
    (class_names : gmap Z string) (top : Q) :
  Rank.sorts argsort →
  Image.np_max predictions = Ok top →
  Forall (Rank.skipped class_names) (Image.top_k_indices argsort predictions) →
  ∃ idx,
    Image.np_argmax predictions = Ok idx ∧
    Image.select argsort predictions class_names = Ok (Z.of_nat idx, top) ∧
    (idx ∈ Image.top_k_indices argsort predictions → Rank.skipped class_names idx) ∧
    (length predictions ≤ 5 → Rank.skipped class_names idx).
Proof.
  intros Hsorts Hmax Hall.
  destruct (all_skipped_fallback argsort predictions class_names top Hmax Hall)
    as (idx & Harg & Hlt & _ & Hsel).
  exists idx. split; [exact Harg |]. split; [exact Hsel |].
  assert (idx ∈ Image.top_k_indices argsort predictions → Rank.skipped class_names idx)
    as Hin.
  { intros Hin. rewrite Forall_forall in Hall. now apply Hall. }
  split; [exact Hin |].
  intros H5. now apply Hin, (few_classes_all_candidates argsort Hsorts).
Qed.

Lemma fallback_answer_witness :
  ∃ idx,
    Image.np_argmax [3 # 10; 7 # 10]%Q = Ok idx ∧
    Image.select Image.insertion_argsort [3 # 10; 7 # 10]%Q {[ 0%Z := "PlantVillage" ]}
    = Ok (Z.of_nat idx, (7 # 10)%Q) ∧
    Rank.skipped {[ 0%Z := "PlantVillage" ]} idx.
Proof.
  destruct (fallback_answer Image.insertion_argsort [3 # 10; 7 # 10]%Q
              {[ 0%Z := "PlantVillage" ]} (7 # 10)%Q insertion_sorts eq_refl)
    as (idx & Ha & Hs & _ & H5).
  - change (Image.top_k_indices Image.insertion_argsort [3 # 10; 7 # 10]%Q) with [1; 0].
    constructor; [right; reflexivity |]. constructor; [left; reflexivity | constructor].
  - exists idx. split; [exact Ha |]. split; [exact Hs |]. apply H5. simpl. lia.
Defined.

(** ** The feature string of [predict_soil] *)

Section FeatureFacts.

Lemma split_scan_comma_length (s cur : string) :
  length (PyStr.split_scan "," s 0 cur) = S (Frame.count_char "," s).
Proof.
  revert cur; induction s as [|c s IH]; intros cur; [reflexivity |].
  cbn [PyStr.split_scan PyStr.startswith Frame.count_char String.length Nat.sub].
  rewrite (eqb_sym "," c).
  destruct (Ascii.eqb c ","); cbn [length]; rewrite IH; reflexivity.
Qed.

Lemma floats_length (f : string → res Q) (pieces : list string) (values : list Q) :
  Soil.floats f pieces = Ok values → length values = length pieces.
Proof.
  revert values; induction pieces as [|x pieces IH]; intros values; simpl.
  - now intros [= <-].
  - intros H. apply bind_ok in H as (v & _ & H). apply bind_ok in H as (vs & Hvs & [= <-]).
    simpl. now rewrite (IH vs Hvs).
Qed.

Lemma floats_raise (f : string → res Q) (pieces : list string) (e : exn) :
  (∀ x e', f x = Raise e' → isinstance_Exception e' = true) →
  Soil.floats f pieces = Raise e → isinstance_Exception e = true.
Proof.
  intros Hf. induction pieces as [|x pieces IH]; simpl; [discriminate |].
  intros H. apply bind_raise in H as [H | (v & _ & H)]; [now apply Hf in H |].
  apply bind_raise in H as [H | (vs & _ & H)]; [now apply IH | discriminate].
Qed.

End FeatureFacts.

(** X9: a feature string is read as twelve numbers or not at all.  Unless
    it holds exactly eleven commas, [predict_soil] emits a [model_error]
    and the answer of the model plays no part; with eleven commas and
    twelve readable pieces the model sees one row whose columns are the
    training columns of [train_soil.py], in their order, and its class is
    emitted. *)
Theorem soil_needs_twelve_features (w : Soil.env) (features_str : string) :
  Soil.model_exists w = true → Soil.imports w = Ok () → Soil.load w = Ok () →
  (∀ x e, Soil.py_float w x = Raise e → isinstance_Exception e = true) →
  (Frame.count_char "," features_str ≠ 11 →
   ∃ error, ∀ model_predict,
     Soil.predict_soil (Frame.with_model w model_predict) features_str
     = Emitted (model_error error)) ∧
  (∀ model_predict values id,
     Soil.floats (Soil.py_float w) (PyStr.split "," features_str) = Ok values →
     Frame.count_char "," features_str = 11 →
     model_predict (zip Frame.training_columns values) = Ok id →
     length values = 12 ∧
     Soil.predict_soil (Frame.with_model w model_predict) features_str
     = Emitted (Soil.success id (Soil.elapsed w))).
Proof.
  intros He Hi Hl Hf. split.
  - intros Hcount.
    destruct (Soil.floats (Soil.py_float w) (PyStr.split "," features_str))
      as [values|e] eqn:E.
    + pose proof (floats_length _ _ _ E) as Hlen.
      unfold PyStr.split in Hlen. rewrite split_scan_comma_length in Hlen.
      eexists. intros model_predict.
      unfold Soil.predict_soil, Soil.body. cbn [Frame.with_model Soil.model_exists
        Soil.imports Soil.load Soil.py_float Soil.classify Soil.elapsed].
      rewrite He, Hi, Hl, E. cbn [negb mbind res_bind].
      unfold Frame.classify, Frame.data_frame.
      destruct (Nat.eqb_spec (length values) (length Frame.feature_names)) as [H12 | _].
      { cbn in H12. lia. }
      cbn [mbind res_bind isinstance_Exception ValueError exn_cls exn_msg]. reflexivity.
    + exists (exn_msg e). intros model_predict.
      unfold Soil.predict_soil, Soil.body. cbn [Frame.with_model Soil.model_exists
        Soil.imports Soil.load Soil.py_float Soil.classify Soil.elapsed].
      rewrite He, Hi, Hl, E. cbn [negb mbind res_bind].
      now rewrite (floats_raise _ _ _ Hf E).
  - intros model_predict values id E Hcount Hm.
    pose proof (floats_length _ _ _ E) as Hlen.
    unfold PyStr.split in Hlen. rewrite split_scan_comma_length, Hcount in Hlen.
    split; [exact Hlen |].
    unfold Soil.predict_soil, Soil.body. cbn [Frame.with_model Soil.model_exists
      Soil.imports Soil.load Soil.py_float Soil.classify Soil.elapsed].
    rewrite He, Hi, Hl, E. cbn [negb mbind res_bind].
    unfold Frame.classify, Frame.data_frame. rewrite Hlen.
    cbn [length Frame.feature_names Nat.eqb mbind res_bind].
    change Frame.feature_names with Frame.training_columns. now rewrite Hm.
Qed.

Lemma soil_needs_twelve_witness :
  ∃ error, ∀ model_predict,
    Soil.predict_soil (Frame.with_model Sample.soil_world model_predict) "90,42,6.5"
    = Emitted (model_error error).
Proof.
  destruct (soil_needs_twelve_features Sample.soil_world "90,42,6.5" eq_refl eq_refl eq_refl)
    as [H _].
  - intros x e. unfold Sample.soil_world, Soil.py_float, Sample.py_float.
    destruct (_ !! x); [discriminate |]. now intros [= <-].
  - apply H. vm_compute. discriminate.
Defined.

(** The message pandas gives for three values in twelve columns. *)
Example soil_three_features :
  Soil.predict_soil (Frame.with_model Sample.soil_world Fixture.model) "90,42,6.5"
  = Emitted (model_error "12 columns passed, passed data had 3 columns") ∧
  Soil.predict_soil (Frame.with_model Sample.soil_world Fixture.model)
    "90,42,6.5,90,42,6.5,90,42,6.5,90,42,6.5"
  = Emitted (Soil.success 2 12).
Proof. split; reflexivity. Qed.

(** ** The script *)

Section ScriptFacts.

Variable argsort : list Q → list nat.
Variable py_repr : json → string.

Lemma self_test_loop_spec (iw : string → Image.env) (tests : list (string * string)) :
  let r := Script.self_test_loop argsort py_repr iw tests in
  ∃ n, n ≤ length tests ∧
    Emitted <$> Script.emitted r
    = (fun t => Image.predict argsort py_repr (iw t.2)) <$> take n tests ∧
    match Script.escaped r with
    | None => n = length tests
    | Some e => ∃ t, tests !! n = Some t ∧ Image.predict argsort py_repr (iw t.2) = Uncaught e
    end.
Proof.
  induction tests as [|t rest IH]; cbn [Script.self_test_loop].
  - exists 0. repeat split; reflexivity.
  - destruct (Image.predict argsort py_repr (iw t.2)) as [j|e] eqn:E.
    + destruct IH as (n & Hn & Hem & Hesc). exists (S n). cbn.
      split; [lia |]. split; [now rewrite E, Hem |].
      destruct (Script.escaped (Script.self_test_loop argsort py_repr iw rest));
        [exact Hesc | now rewrite Hesc].
    + exists 0. cbn. split; [lia |]. split; [reflexivity |]. now exists t.
Qed.

End ScriptFacts.

(** X10: the self-test prints the results of [predict] on its three
    URLs, in order, up to the first call an exception escapes from: three
    objects when none does, and otherwise the objects of the calls before
    the one that ended the run. *)
Theorem self_test_emits_in_order (argsort : list Q → list nat) (py_repr : json → string)
    (iw : string → Image.env) :
  let r := Script.run_self_test argsort py_repr iw in
  ∃ n, n ≤ 3 ∧
    length (Script.emitted r) = n ∧
    Emitted <$> Script.emitted r
    = (fun t => Image.predict argsort py_repr (iw t.2)) <$> take n Script.test_images ∧
    (Script.escaped r = None ↔ n = 3) ∧
    (∀ e, Script.escaped r = Some e →
       ∃ t, Script.test_images !! n = Some t ∧
            Image.predict argsort py_repr (iw t.2) = Uncaught e).
Proof.
  intros r. destruct (self_test_loop_spec argsort py_repr iw Script.test_images)
    as (n & Hn & Hem & Hesc).
  fold (Script.run_self_test argsort py_repr iw) in Hem, Hesc. fold r in Hem, Hesc.
  change (length Script.test_images) with 3 in Hn.
  exists n. split; [exact Hn |]. split.
  { apply (f_equal length) in Hem. rewrite !length_fmap, length_take in Hem.
    change (length Script.test_images) with 3 in Hem. lia. }
  split; [exact Hem |]. split.
  - destruct (Script.escaped r) as [e|].
    + destruct Hesc as (t & Ht & _). apply lookup_lt_Some in Ht.
      change (length Script.test_images) with 3 in Ht. split; [discriminate | lia].
    + split; [intros _; exact Hesc | reflexivity].
  - intros e He. now rewrite He in Hesc.
Qed.


(** ** The metadata record, once more *)

Lemma dict_of_snoc (members : list (string * json)) (k : string) (v : json) :
  Image.dict_of (members ++ [(k, v)]) = <[k := v]> (Image.dict_of members).
Proof. unfold Image.dict_of. now rewrite foldl_snoc. Qed.

(** X12: a field that [predict] does not read changes nothing once the
    record of the resolved label has any field at all: a store in which
    that record has the field added - such as the store with the record
    written once more at its end, the field appended - gives the same
    result. *)
Theorem unread_field_changes_nothing (py_repr : json → string)
    (class_names : gmap Z string) (info : json)
    (t idx : Z) (confidence : Q) (record : gmap string json) (k : string) (v : json) :
  let label := Image.class_name_of class_names idx in
  Image.record_at info label = Some record → record ≠ ∅ → k ∉ Fields.read →
  (∀ info', Image.record_at info' label = Some (<[k := v]> record) →
     Image.enrich py_repr class_names info' t idx confidence
     = Image.enrich py_repr class_names info t idx confidence) ∧
  (∀ entries members,
     info = JObj entries → Image.dict_of entries !! label = Some (JObj members) →
     Image.record_at (JObj (entries ++ [(label, JObj (members ++ [(k, v)]))])) label
     = Some (<[k := v]> record)).
Proof.
  intros label Hrec Hne Hk. split.
  - intros info' Hrec'. unfold Fields.read in Hk.
    repeat (apply not_elem_of_cons in Hk as [? Hk]).
    rewrite (enrich_record py_repr class_names info' t idx confidence _ Hrec').
    rewrite (enrich_record py_repr class_names info t idx confidence _ Hrec).
    unfold Image.assemble, Image.crop_name, Image.disease_name.
    rewrite (proj2 (truthy_true record) Hne).
    rewrite (proj2 (truthy_true (<[k := v]> record)) (insert_non_empty _ _ _)).
    unfold Image.result, Image.result_object.
    now rewrite !lookup_insert_ne by congruence.
  - intros entries members -> Hlook. unfold Image.record_at in Hrec |- *.
    rewrite Hlook in Hrec. injection Hrec as <-.
    rewrite dict_of_snoc, lookup_insert_eq. cbn [default from_option id].
    now rewrite dict_of_snoc.
Qed.

Lemma unread_field_witness :
  Image.enrich Sample.py_repr Sample.class_names Sample.advice_with_source 840 1 (9 # 10)
  = Image.enrich Sample.py_repr Sample.class_names Sample.advice_only 840 1 (9 # 10).
Proof.
  refine (proj1 (unread_field_changes_nothing Sample.py_repr Sample.class_names
                   Sample.advice_only 840 1 (9 # 10)
                   {[ "irrigation_advice" := JStr "Water at the base of the plant." ]}
                   "source" (JStr "field guide") eq_refl (map_non_empty_singleton _ _) _)
            Sample.advice_with_source eq_refl).
  unfold Fields.read. intros H.
  repeat (apply elem_of_cons in H as [H | H]; [discriminate |]).
  now apply elem_of_nil in H.
Defined.
